(** * Verification of the competition notification bot

    A shallow embedding of the two bot programs of the repository,
    [src/bot/main.py] and [src/bot/contest_noti_slackbot.py], and the proofs
    of the properties stated about them.

    Conventions of the embedding:
    - a Python [str] is the list of its Unicode code points ([list Z]);
      string literals of the source are written with [u8 "..."], which
      decodes the UTF-8 bytes of the Rocq literal;
    - a competition record is a Python [dict] from field names to values,
      here a [gmap string pyval]; [d['k']] raises [KeyError] when the
      key is absent, [d.get('k', x)] does not;
    - a call that can raise returns a [result]; code that touches the
      checkpoint file, the clock, the network or Slack runs in the monad
      [M], which threads the program state and records every external
      call in a trace;
    - the external collaborators (Kaggle API, HTTP, Slack, clock) and the
      library functions the bot calls but does not define ([urljoin],
      [strptime], [strftime], the Unicode digit table of [re]) are
      parameters of the development. *)

From Stdlib Require Import ZArith Lia.
From stdpp Require Import base gmap strings list fin_maps.

Local Open Scope Z_scope.

(** ** Python strings *)

Abbreviation str := (list Z).

Module Utf8.

(** Value of one byte of a Rocq string literal. *)
Definition byte (a : Ascii.ascii) : Z := Z.of_nat (Ascii.nat_of_ascii a).

(** Payload of a continuation byte [10xxxxxx]. *)
Definition cont (a : Ascii.ascii) : Z := byte a - 128.

(** Decoding of well-formed UTF-8; decoding stops at a truncated sequence. *)
Fixpoint decode (s : string) : str :=
  match s with
  | EmptyString => []
  | String a s1 =>
      let b := byte a in
      if b <? 128 then b :: decode s1
      else if b <? 224 then
        match s1 with
        | String a1 s2 => ((b - 192) * 64 + cont a1) :: decode s2
        | _ => []
        end
      else if b <? 240 then
        match s1 with
        | String a1 (String a2 s3) =>
            ((b - 224) * 4096 + cont a1 * 64 + cont a2) :: decode s3
        | _ => []
        end
      else
        match s1 with
        | String a1 (String a2 (String a3 s4)) =>
            ((b - 240) * 262144 + cont a1 * 4096 + cont a2 * 64 + cont a3)
              :: decode s4
        | _ => []
        end
  end.

End Utf8.

(** A string literal of the source. *)
Definition u8 (s : string) : str := Utf8.decode s.

#[global] Arguments u8 : simpl never.

Module PyStr.

(** [s.startswith(prefix)] *)
Fixpoint startswith (s prefix : str) : bool :=
  match prefix, s with
  | [], _ => true
  | p :: prefix', c :: s' => (c =? p) && startswith s' prefix'
  | _ :: _, [] => false
  end.

(** [sub in s] *)
Fixpoint contains (sub s : str) : bool :=
  startswith s sub ||
  match s with
  | [] => false
  | _ :: s' => contains sub s'
  end.

(** Scan of [s.replace(old, new)] for a non-empty [old]: [skip] counts the
    characters of the occurrence found last that are still to be dropped. *)
Fixpoint replace_from (old new : str) (skip : nat) (s : str) : str :=
  match s with
  | [] => []
  | c :: s' =>
      match skip with
      | S k => replace_from old new k s'
      | O =>
          if startswith s old
          then new ++ replace_from old new (Nat.pred (length old)) s'
          else c :: replace_from old new O s'
      end
  end.

(** [s.replace(old, new)]: every non-overlapping occurrence, left to right.
    An empty [old] matches before every character and at the end. *)
Definition replace (s old new : str) : str :=
  match old with
  | [] => new ++ flat_map (fun c => c :: new) s
  | _ :: _ => replace_from old new O s
  end.

(** [str.isspace] of one character (the whitespace table of CPython). *)
Definition isspace (c : Z) : bool :=
  ((9 <=? c) && (c <=? 13)) || ((28 <=? c) && (c <=? 32))
  || (c =? 133) || (c =? 160) || (c =? 5760)
  || ((8192 <=? c) && (c <=? 8202))
  || (c =? 8232) || (c =? 8233) || (c =? 8239) || (c =? 8287)
  || (c =? 12288).

Fixpoint lstrip_by (p : Z -> bool) (s : str) : str :=
  match s with
  | [] => []
  | c :: s' => if p c then lstrip_by p s' else s
  end.

Definition rstrip_by (p : Z -> bool) (s : str) : str :=
  rev (lstrip_by p (rev s)).

(** [s.strip()] *)
Definition strip (s : str) : str := rstrip_by isspace (lstrip_by isspace s).

(** [s.rstrip(chars)] *)
Definition rstrip (s chars : str) : str :=
  rstrip_by (fun c => bool_decide (c ∈ chars)) s.

(** [s.split(sep)] for a one-character separator. *)
Fixpoint split (sep : Z) (s : str) : list str :=
  match s with
  | [] => [[]]
  | c :: s' =>
      if c =? sep then [] :: split sep s'
      else match split sep s' with
           | p :: ps => (c :: p) :: ps
           | [] => [[c]]
           end
  end.

(** Truth value of a string: non-empty. *)
Definition truthy (s : str) : bool :=
  match s with [] => false | _ :: _ => true end.

End PyStr.

(** ** Regular expression of the clock times: [\d{1,2}:\d{2}] *)

Module Re.
Section Digits.

(** [\d] of a [str] pattern matches every Unicode decimal digit; the table
    outside ASCII belongs to the interpreter and is a parameter. *)
Variable unicode_nd : Z -> bool.

Definition is_digit (c : Z) : bool :=
  if c <? 128 then (48 <=? c) && (c <=? 57) else unicode_nd c.

(** [\d{2}] at the head of [s]. *)
Definition two_digits (s : str) : bool :=
  match s with
  | a :: b :: _ => is_digit a && is_digit b
  | _ => false
  end.

(** [:\d{2}] at the head of [s]. *)
Definition colon_minutes (s : str) : bool :=
  match s with
  | c :: s' => (c =? 58) && two_digits s'
  | [] => false
  end.

(** Length of the match of [\d{1,2}:\d{2}] anchored at the head of [s]:
    the greedy two-digit hour is tried first, then one digit. *)
Definition match_clock (s : str) : option nat :=
  match s with
  | d :: s1 =>
      if is_digit d then
        match s1 with
        | d' :: s2 =>
            if is_digit d' && colon_minutes s2 then Some 5%nat
            else if colon_minutes s1 then Some 4%nat
            else None
        | [] => None
        end
      else None
  | [] => None
  end.

(** Scan of [re.sub(r'\d{1,2}:\d{2}', '', s)]; [skip] counts the characters
    of the current match that are still to be dropped. *)
Fixpoint sub_clock_from (skip : nat) (s : str) : str :=
  match s with
  | [] => []
  | c :: s' =>
      match skip with
      | S k => sub_clock_from k s'
      | O =>
          match match_clock s with
          | Some n => sub_clock_from (Nat.pred n) s'
          | None => c :: sub_clock_from O s'
          end
      end
  end.

(** [re.sub(r'\d{1,2}:\d{2}', '', s)] *)
Definition sub_clock (s : str) : str := sub_clock_from O s.

End Digits.
End Re.

(** ** Python values, exceptions and dictionaries *)

(** The values a record field holds: [None] or a [str]. *)
Inductive pyval :=
| VNone
| VStr (s : str).

#[global] Instance pyval_eq_dec : EqDecision pyval.
Proof. solve_decision. Defined.

#[global] Instance pyval_countable : Countable pyval.
Proof.
  refine (inj_countable'
            (fun v => match v with VNone => None | VStr s => Some s end)
            (fun o => match o with None => VNone | Some s => VStr s end) _).
  intros []; reflexivity.
Defined.

(** A competition record: a Python dictionary. *)
Abbreviation pydict := (gmap string pyval).

(** The exceptions (all subclasses of [Exception]) the bot can meet. *)
Inductive exn :=
| KeyError
| TypeError
| ValueError
| AttributeError
| SlackApiError
| RequestException
| OSError.

Inductive result (A : Type) :=
| Ok (a : A)
| Raise (e : exn).
Arguments Ok {A} a.
Arguments Raise {A} e.

#[global] Instance exn_eq_dec : EqDecision exn.
Proof. solve_decision. Defined.

#[global] Instance result_eq_dec {A} `{EqDecision A} : EqDecision (result A).
Proof. solve_decision. Defined.

#[global] Instance result_ret : MRet result := fun A a => Ok a.
#[global] Instance result_bind : MBind result :=
  fun A B f r => match r with Ok a => f a | Raise e => Raise e end.

Module Py.

(** [str(v)], as an f-string renders a value. *)
Definition format (v : pyval) : str :=
  match v with
  | VNone => u8 "None"
  | VStr s => s
  end.

(** Truth value of [v]. *)
Definition truthy (v : pyval) : bool :=
  match v with
  | VNone => false
  | VStr s => PyStr.truthy s
  end.

(** [a or b] *)
Definition or (a b : pyval) : pyval := if truthy a then a else b.

(** [d[k]] *)
Definition getitem (d : pydict) (k : string) : result pyval :=
  match d !! k with
  | Some v => Ok v
  | None => Raise KeyError
  end.

(** [d.get(k, default)] *)
Definition get (d : pydict) (k : string) (default : pyval) : pyval :=
  match d !! k with
  | Some v => v
  | None => default
  end.

(** [v.startswith(prefix)]: [None] has no such attribute. *)
Definition startswith (v : pyval) (prefix : str) : result bool :=
  match v with
  | VStr s => Ok (PyStr.startswith s prefix)
  | VNone => Raise AttributeError
  end.

(** [v[:n]]: [None] is not subscriptable. *)
Definition slice_to (v : pyval) (n : nat) : result str :=
  match v with
  | VStr s => Ok (take n s)
  | VNone => Raise TypeError
  end.

(** [{f(x) for x in l}] for an [f] that can raise. *)
Fixpoint set_of {A} (f : A -> result pyval) (l : list A) : result (gset pyval) :=
  match l with
  | [] => Ok ∅
  | x :: l' =>
      v ← f x;
      s ← set_of f l';
      Ok ({[v]} ∪ s)
  end.

(** [[x for x in l if p(x)]] for a [p] that can raise. *)
Fixpoint filter_list {A} (p : A -> result bool) (l : list A) : result (list A) :=
  match l with
  | [] => Ok []
  | x :: l' =>
      b ← p x;
      r ← filter_list p l';
      Ok (if b : bool then x :: r else r)
  end.

End Py.

(** ** Naive datetimes *)

Record datetime := {
  year : Z; month : Z; day : Z;
  hour : Z; minute : Z; second : Z; microsecond : Z
}.

Module Datetime.

Definition fields (d : datetime) : list Z :=
  [year d; month d; day d; hour d; minute d; second d; microsecond d].

Fixpoint lex_lt (a b : list Z) : bool :=
  match a, b with
  | x :: a', y :: b' => (x <? y) || ((x =? y) && lex_lt a' b')
  | _, _ => false
  end.

(** [a > b] on naive datetimes: field by field, most significant first. *)
Definition gt (a b : datetime) : bool := lex_lt (fields b) (fields a).

End Datetime.

#[global] Arguments Datetime.gt : simpl never.

(** ** The outside world *)

(** Library functions the bot calls and does not define. *)
Record library := {
  (** Unicode decimal digits beyond ASCII, as [re] classifies them. *)
  unicode_nd : Z -> bool;
  (** [urllib.parse.urljoin(base, url)] on two strings. *)
  urljoin : str -> str -> str;
  (** [datetime.strptime(s, "%Y-%m-%d %H:%M:%S UTC")]; [None] stands for
      the [ValueError] of a string that does not match the format. *)
  strptime : str -> option datetime;
  (** [d.strftime("%Y-%m-%d %H:%M:%S UTC")] *)
  strftime : datetime -> str
}.

(** A raw competition as the Kaggle API lists it. *)
Record kaggle_item := {
  title : pyval;
  ref : pyval;
  deadline : option datetime;
  category : pyval;
  reward : pyval;
  description : pyval
}.

(** One [div.comp] block of the Dacon listing, as the queries of the bot
    see it: each field is the answer of one [find]. *)
Record entry := {
  (** text of the first [div.dday] *)
  dday : option str;
  (** text of the first [p] of class [name ellipsis] *)
  name_p : option str;
  (** text of the first [p] of class [info2 ellipsis keyword] *)
  keyword_p : option str;
  (** the first [a]: its [href] attribute ([VNone] when it has none) *)
  link_a : option pyval;
  (** the first [img]: its [src] and [data-src] attributes *)
  img : option (pyval * pyval)
}.

(** A parsed page, as the queries of the bot see it. *)
Record document := {
  (** the text nodes, in document order *)
  strings : list str;
  (** [content] of the first [meta] with [property="og:image"] *)
  og_image : option pyval;
  (** [src] of the first [img] of class [competition-logo] *)
  logo_img : option pyval;
  (** [src] of the first [img] of class [competition-header] *)
  header_img : option pyval;
  (** [data-src] of the first [img] that has this attribute *)
  data_src_img : option pyval;
  (** the [div] blocks of class [comp], in document order *)
  comps : list entry
}.

(** Slack Block Kit payloads are JSON documents. *)
#[local] Unset Elimination Schemes.
Inductive json :=
| JNull
| JBool (b : bool)
| JStr (s : str)
| JList (l : list json)
| JDict (l : list (string * json)).
#[local] Set Elimination Schemes.

(** The arguments of one [chat_postMessage] call (the channel is fixed by
    the configuration). *)
Record message := {
  blocks : list json;
  text : str;
  (** [unfurl_links] and [unfurl_media], when given *)
  unfurl : option bool
}.

(** The external collaborators during one run. *)
Record world := {
  (** [KaggleApi().authenticate()] *)
  authenticate : result unit;
  (** [api.competitions_list()] *)
  competitions_list : result (list kaggle_item);
  (** [requests.get(url)] followed by the parse of its body *)
  requests_get : str -> result document;
  (** [slack_client.chat_postMessage(...)]: the [ok] field of the response,
      or the exception raised *)
  chat_postMessage : message -> result bool;
  (** the successive values of [datetime.now()] *)
  clock : nat -> datetime
}.

(** ** Program state and effects *)

(** The checkpoint file [DATA_FILE]. *)
Inductive file_state :=
| FileAbsent
| FileCorrupt
| FileData (data : list pydict).

(** The external calls of a run, oldest first. *)
Inductive event :=
| EvRead
| EvWrite (data : list pydict)
| EvAuth
| EvList
| EvGet (url : str)
| EvPost (m : message).

Record state := {
  file : file_state;
  ticks : nat;
  trace : list event
}.

(** Computations that read and change the state and can raise. *)
Definition M (A : Type) : Type := state -> result A * state.

#[global] Instance M_ret : MRet M := fun A a st => (Ok a, st).
#[global] Instance M_bind : MBind M :=
  fun A B f m st =>
    match m st with
    | (Ok a, st') => f a st'
    | (Raise e, st') => (Raise e, st')
    end.

Module Eff.

(** [raise e] *)
Definition raise {A} (e : exn) : M A := fun st => (Raise e, st).

(** A pure computation that can raise. *)
Definition lift {A} (r : result A) : M A := fun st => (r, st).

(** [try: body except Exception as e: handler] *)
Definition try_except {A} (body : M A) (handler : exn -> M A) : M A :=
  fun st =>
    match body st with
    | (Ok a, st') => (Ok a, st')
    | (Raise e, st') => handler e st'
    end.

(** An external call is appended to the trace. *)
Definition emit (ev : event) : M unit :=
  fun st =>
    (Ok tt, {| file := file st; ticks := ticks st; trace := trace st ++ [ev] |}).

(** [for x in l: acc = body(x, acc)] *)
Fixpoint for_each {A B} (l : list A) (body : A -> B -> M B) (acc : B) : M B :=
  match l with
  | [] => mret acc
  | x :: l' => acc' ← body x acc; for_each l' body acc'
  end.

Section World.
Variable W : world.

(** [api.authenticate()] *)
Definition kaggle_authenticate : M unit :=
  _ ← emit EvAuth; lift (authenticate W).

(** [api.competitions_list()] *)
Definition kaggle_competitions_list : M (list kaggle_item) :=
  _ ← emit EvList; lift (competitions_list W).

(** [datetime.now()] *)
Definition now : M datetime :=
  fun st =>
    (Ok (clock W (ticks st)),
     {| file := file st; ticks := S (ticks st); trace := trace st |}).

(** [requests.get(url)] and [BeautifulSoup(response.text, 'html.parser')] *)
Definition get_page (url : str) : M document :=
  _ ← emit (EvGet url); lift (requests_get W url).

(** [slack_client.chat_postMessage(...)] *)
Definition post (m : message) : M bool :=
  _ ← emit (EvPost m); lift (chat_postMessage W m).

End World.

(** [os.path.exists(DATA_FILE)] *)
Definition file_exists : M bool :=
  fun st => (Ok (match file st with FileAbsent => false | _ => true end), st).

(** The parse of the content of the checkpoint file. *)
Definition parse_file : M (list pydict) :=
  fun st =>
    match file st with
    | FileData data => (Ok data, st)
    | _ => (Raise ValueError, st)
    end.

(** [json.load] of the checkpoint file, which exists. *)
Definition read_file : M (list pydict) :=
  _ ← emit EvRead; parse_file.

(** The checkpoint file receives [data]. *)
Definition store_file (data : list pydict) : M unit :=
  fun st =>
    (Ok tt, {| file := FileData data; ticks := ticks st; trace := trace st |}).

(** [json.dump] of [data] into the checkpoint file. *)
Definition write_file (data : list pydict) : M unit :=
  _ ← emit (EvWrite data); store_file data.

End Eff.

(** ** Code shared by the two programs *)

Module Common.

(** The value of a JSON field that holds a Python value. *)
Definition json_of (v : pyval) : json :=
  match v with
  | VNone => JNull
  | VStr s => JStr s
  end.

(** The line break of a string literal. *)
Definition nl : str := [10].

(** [x.text] where [x] is the answer of a [find]: [None] has no [text]. *)
Definition text_of (x : option str) : result str :=
  match x with
  | Some s => Ok s
  | None => Raise AttributeError
  end.

(** [soup.find(string=p)]: the first text node that satisfies [p]. *)
Fixpoint find_string (p : str -> bool) (nodes : list str) : option str :=
  match nodes with
  | [] => None
  | s :: nodes' => if p s then Some s else find_string p nodes'
  end.

(** The label looked for in the schedule page, the prefix removed from the
    node found, and the answer when no node has the label. *)
Definition PERIOD_LABEL : str := u8 "대회 기간 :".
Definition PERIOD_PREFIX : str := u8 "- 대회 기간 : ".
Definition PERIOD_NOT_FOUND : str := u8 "기간 정보를 찾을 수 없습니다.".

(** [lambda text: text and '대회 기간 :' in text] *)
Definition has_period_label (s : str) : bool :=
  PyStr.truthy s && PyStr.contains PERIOD_LABEL s.

(** The status of an entry that accepts participants. *)
Definition STATUS_OPEN : str := u8 "참가신청중".

Definition DACON_BASE : str := u8 "https://dacon.io".
Definition DACON_MAIN : str := u8 "https://dacon.io/competitions".
Definition KAGGLE_BASE : str := u8 "https://www.kaggle.com".
Definition KAGGLE_PREFIX : str := u8 "https://www.kaggle.com/competitions/".

(** The URL of a raw Kaggle competition: [comp.ref] itself when it starts
    with [http], else the competitions prefix followed by it. [None] has
    no [startswith]. *)
Definition competition_url (comp : kaggle_item) : result str :=
  match ref comp with
  | VStr r =>
      if PyStr.startswith r (u8 "http") then Ok r
      else Ok (KAGGLE_PREFIX ++ r)
  | VNone => Raise AttributeError
  end.

(** [comp.deadline > t]: [None] is not ordered with a datetime. *)
Definition deadline_after (comp : kaggle_item) (t : datetime) : result bool :=
  match deadline comp with
  | Some d => Ok (Datetime.gt d t)
  | None => Raise TypeError
  end.

(** [comp.deadline.strftime("%Y-%m-%d %H:%M:%S UTC")] *)
Definition deadline_string (L : library) (comp : kaggle_item) : result str :=
  match deadline comp with
  | Some d => Ok (strftime L d)
  | None => Raise AttributeError
  end.

(** [urljoin(base, url)]: a false [url] ([None] or empty) gives [base]. *)
Definition urljoin_val (L : library) (base : str) (url : pyval) : str :=
  match url with
  | VStr (c :: s) => urljoin L base (c :: s)
  | _ => base
  end.

(** [json.load] of the checkpoint when the file exists, with the handler
    both programs put around it. *)
Definition load_competition_data : M (list pydict) :=
  file_exists ← Eff.file_exists;
  if file_exists : bool
  then Eff.try_except Eff.read_file (fun _ => mret [])
  else mret [].

(** [json.dump] of the checkpoint, with its handler. *)
Definition save_competition_data (data : list pydict) : M unit :=
  Eff.try_except (Eff.write_file data) (fun _ => mret tt).

(** The body shared by [get_new_competitions] and [find_new_competitions]:
    the comprehension over [current] against the set [new_urls]. *)
Definition select_new (current : list pydict) (new_urls : gset pyval) :
    result (list pydict) :=
  Py.filter_list
    (fun comp => url ← Py.getitem comp "url"; Ok (bool_decide (url ∈ new_urls)))
    current.

End Common.

(** ** [src/bot/main.py] *)

Module Main.
Import Common.

Section Program.
Variable L : library.
Variable W : world.

Definition load_competition_data : M (list pydict) := Common.load_competition_data.

Definition save_competition_data (data : list pydict) : M unit :=
  Common.save_competition_data data.

(** [get_new_competitions(current_competitions, saved_competitions)] *)
Definition get_new_competitions (current_competitions saved_competitions : list pydict) :
    result (list pydict) :=
  saved_urls ← Py.set_of (fun comp => Py.getitem comp "url") saved_competitions;
  current_urls ← Py.set_of (fun comp => Py.getitem comp "url") current_competitions;
  let new_urls := current_urls ∖ saved_urls in
  select_new current_competitions new_urls.

(** The four patterns tried on the page of a competition, in order. *)
Definition find_image (soup : document) : pyval :=
  let image_url := VNone in
  let image_url :=
    match og_image soup with
    | Some content => if Py.truthy content then content else image_url
    | None => image_url
    end in
  let image_url :=
    if Py.truthy image_url then image_url
    else match logo_img soup with
         | Some src => if Py.truthy src then src else image_url
         | None => image_url
         end in
  let image_url :=
    if Py.truthy image_url then image_url
    else match header_img soup with
         | Some src => if Py.truthy src then src else image_url
         | None => image_url
         end in
  if Py.truthy image_url then image_url
  else match data_src_img soup with
       | Some data_src => data_src
       | None => image_url
       end.

(** A relative image URL is joined to the base of the site. *)
Definition absolute_image (base : str) (image_url : pyval) : pyval :=
  match image_url with
  | VStr s =>
      if PyStr.truthy s
         && negb (PyStr.startswith s (u8 "http://") || PyStr.startswith s (u8 "https://"))
      then VStr (urljoin L base s)
      else image_url
  | VNone => VNone
  end.

(** The inner [try] of the Kaggle loop: the image of the competition page. *)
Definition scrape_image (url : str) : M pyval :=
  Eff.try_except
    (soup ← Eff.get_page W url;
     mret (absolute_image KAGGLE_BASE (find_image soup)))
    (fun _ => mret VNone).

(** The body of the loop of [get_kaggle_competitions]. *)
Definition kaggle_step (comp : kaggle_item) (competition_list : list pydict) :
    M (list pydict) :=
  t ← Eff.now W;
  open ← Eff.lift (deadline_after comp t);
  if open : bool then
    url ← Eff.lift (competition_url comp);
    image_url ← scrape_image url;
    deadline_str ← Eff.lift (deadline_string L comp);
    mret (competition_list ++
      [ (list_to_map
           [ ("platform", VStr (u8 "Kaggle"));
             ("name", title comp);
             ("description", description comp);
             ("url", VStr url);
             ("deadline", VStr deadline_str);
             ("category", category comp);
             ("reward", VStr (u8 "$" ++ Py.format (reward comp)));
             ("image_url", image_url) ] : pydict) ])
  else mret competition_list.

Definition get_kaggle_competitions : M (list pydict) :=
  Eff.try_except
    (_ ← Eff.kaggle_authenticate W;
     competitions ← Eff.kaggle_competitions_list W;
     Eff.for_each competitions kaggle_step [])
    (fun _ => mret []).

(** The text of the period once its node is found. *)
Definition clean_period (period_text : str) : str :=
  let period := PyStr.strip (PyStr.replace period_text PERIOD_PREFIX []) in
  let cleaned_period := Re.sub_clock (unicode_nd L) period in
  match PyStr.split 126 cleaned_period with
  | [start_part; end_part] =>
      PyStr.strip start_part ++ u8 " ~ " ++ PyStr.strip end_part
  | _ => cleaned_period
  end.

Definition get_competition_period (detail_url : str) : M pyval :=
  Eff.try_except
    (soup ← Eff.get_page W detail_url;
     match find_string has_period_label (strings soup) with
     | Some period_text => mret (VStr (clean_period period_text))
     | None => mret (VStr PERIOD_NOT_FOUND)
     end)
    (fun _ => mret VNone).

(** The body of the inner [try] of the loop of [get_dacon_competitions]. *)
Definition dacon_entry (comp : entry) (active_competitions : list pydict) :
    M (list pydict) :=
  match dday comp with
  | Some status =>
      if PyStr.contains STATUS_OPEN status then
        name ← Eff.lift (text_of (name_p comp));
        keywords ← Eff.lift (text_of (keyword_p comp));
        relative_link ←
          match link_a comp with
          | Some href => mret href
          | None => Eff.raise AttributeError
          end;
        let full_link := urljoin_val L DACON_BASE relative_link in
        let schedule_url := PyStr.rstrip full_link (u8 "/") ++ u8 "/schedule" in
        period ← get_competition_period schedule_url;
        let image_url :=
          match img comp with
          | Some (src, data_src) => absolute_image DACON_BASE (Py.or src data_src)
          | None => VNone
          end in
        mret (active_competitions ++
          [ (list_to_map
               [ ("platform", VStr (u8 "Dacon"));
                 ("name", VStr (PyStr.strip name));
                 ("keywords", VStr (PyStr.strip keywords));
                 ("url", VStr full_link);
                 ("period", period);
                 ("image_url", image_url) ] : pydict) ])
      else mret active_competitions
  | None => mret active_competitions
  end.

(** One turn of the loop: an entry that raises is skipped. *)
Definition dacon_step (comp : entry) (active_competitions : list pydict) :
    M (list pydict) :=
  Eff.try_except (dacon_entry comp active_competitions)
                 (fun _ => mret active_competitions).

Definition get_dacon_competitions : M (list pydict) :=
  Eff.try_except
    (soup ← Eff.get_page W DACON_MAIN;
     Eff.for_each (comps soup) dacon_step [])
    (fun _ => mret []).

(** [format_slack_message(competition)]: the blocks of the message. *)
Definition format_slack_message (competition : pydict) : result (list json) :=
  platform ← Py.getitem competition "platform";
  let kaggle := bool_decide (platform = VStr (u8 "Kaggle")) in
  let platform_name := if kaggle then u8 "Kaggle" else u8 "Dacon" in
  let header :=
    JDict [ ("type", JStr (u8 "section"));
            ("text", JDict
               [ ("type", JStr (u8 "mrkdwn"));
                 ("text", JStr (u8 "🔥 새로운 *" ++ platform_name
                                 ++ u8 "* 대회가 열렸어요!")) ]) ] in
  let divider := JDict [ ("type", JStr (u8 "divider")) ] in
  url ← Py.getitem competition "url";
  name ← Py.getitem competition "name";
  let link := u8 "*<" ++ Py.format url ++ u8 "|" ++ Py.format name ++ u8 ">*" ++ nl in
  let none := VStr (u8 "없음") in
  let details :=
    if kaggle then
      u8 "카테고리: " ++ Py.format (Py.get competition "category" none) ++ nl
      ++ u8 "상금: " ++ Py.format (Py.get competition "reward" none) ++ nl
      ++ u8 "마감일: " ++ Py.format (Py.get competition "deadline" none)
    else
      u8 "키워드: " ++ Py.format (Py.get competition "keywords" none) ++ nl
      ++ u8 "상금: " ++ Py.format (Py.get competition "reward" none) ++ nl
      ++ u8 "기간: " ++ Py.format (Py.get competition "period" none) in
  let section_text :=
    JDict [ ("type", JStr (u8 "mrkdwn")); ("text", JStr (link ++ details)) ] in
  accessory ←
    (if Py.truthy (Py.get competition "image_url" VNone) then
       image_url ← Py.getitem competition "image_url";
       Ok [ ("accessory", JDict
               [ ("type", JStr (u8 "image"));
                 ("image_url", json_of image_url);
                 ("alt_text", JStr (u8 "대회 이미지 썸네일")) ]) ]
     else Ok []);
  let competition_section :=
    JDict ([ ("type", JStr (u8 "section")); ("text", section_text) ] ++ accessory) in
  context_text ←
    (if kaggle then
       short ← Py.slice_to (Py.get competition "description" (VStr [])) 100;
       Ok (JStr short)
     else Ok (json_of (Py.get competition "keywords" (VStr []))));
  let context :=
    JDict [ ("type", JStr (u8 "context"));
            ("elements", JList
               [ JDict
                   [ ("type", JStr (u8 "image"));
                     ("image_url", JStr (u8 "https://api.slack.com/img/blocks/bkb_template_images/tripAgentLocationMarker.png"));
                     ("alt_text", JStr (u8 "Location Pin Icon")) ];
                 JDict
                   [ ("type", JStr (u8 "plain_text"));
                     ("emoji", JBool true);
                     ("text", context_text) ] ]) ] in
  let actions :=
    JDict [ ("type", JStr (u8 "actions"));
            ("elements", JList
               [ JDict
                   [ ("type", JStr (u8 "button"));
                     ("text", JDict
                        [ ("type", JStr (u8 "plain_text"));
                          ("emoji", JBool true);
                          ("text", JStr (u8 "같이 할 사람 찾기 👋🏼")) ]);
                     ("url", JStr (u8 "https://forms.gle/pjKkvprwGQpGgPTE9"));
                     ("value", JStr (u8 "go_to_surveyform")) ];
                 JDict
                   [ ("type", JStr (u8 "button"));
                     ("text", JDict
                        [ ("type", JStr (u8 "plain_text"));
                          ("emoji", JBool true);
                          ("text", JStr (u8 "대회 페이지 방문")) ]);
                     ("url", json_of url);
                     ("value", JStr (u8 "go_to_competition")) ] ]) ] in
  Ok [header; divider; competition_section; context; divider; actions].

(** The arguments [send_slack_notification] passes to Slack. *)
Definition notification (competition : pydict) : result message :=
  message_blocks ← format_slack_message competition;
  name ← Py.getitem competition "name";
  Ok {| blocks := message_blocks;
        text := u8 "New competition: " ++ Py.format name;
        unfurl := Some false |}.

(** [send_slack_notification(competition)]: every exception is logged. *)
Definition send_slack_notification (competition : pydict) : M unit :=
  Eff.try_except
    (message ← Eff.lift (notification competition);
     _ ← Eff.post W message;
     mret tt)
    (fun _ => mret tt).

(** [check_new_competitions()] *)
Definition check_new_competitions : M unit :=
  Eff.try_except
    (saved_competitions ← load_competition_data;
     kaggle ← get_kaggle_competitions;
     dacon ← get_dacon_competitions;
     let current_competitions := ([] ++ kaggle) ++ dacon in
     match current_competitions with
     | [] => mret tt
     | _ :: _ =>
         new_competitions ←
           Eff.lift (get_new_competitions current_competitions saved_competitions);
         _ ← Eff.for_each new_competitions
               (fun comp _ => send_slack_notification comp) tt;
         save_competition_data current_competitions
     end)
    (fun _ => mret tt).

(** [datetime.strptime(v, "%Y-%m-%d %H:%M:%S UTC")]: [TypeError] for a
    value that is not a string, [ValueError] for a string off the format. *)
Definition parse_deadline (v : pyval) : result datetime :=
  match v with
  | VNone => Raise TypeError
  | VStr s =>
      match strptime L s with
      | Some d => Ok d
      | None => Raise ValueError
      end
  end.

(** The body of the loop of [clean_competition_data]. *)
Definition clean_step (current_time : datetime) (comp : pydict)
    (cleaned_competitions : list pydict) : result (list pydict) :=
  platform ← Py.getitem comp "platform";
  if bool_decide (platform = VStr (u8 "Kaggle")) then
    deadline_value ← Py.getitem comp "deadline";
    deadline ← parse_deadline deadline_value;
    if Datetime.gt deadline current_time
    then Ok (cleaned_competitions ++ [comp])
    else Ok cleaned_competitions
  else Ok (cleaned_competitions ++ [comp]).

(** [clean_competition_data()] *)
Definition clean_competition_data : M unit :=
  Eff.try_except
    (competitions ← load_competition_data;
     match competitions with
     | [] => mret tt
     | _ :: _ =>
         current_time ← Eff.now W;
         cleaned_competitions ←
           Eff.for_each competitions
             (fun comp cleaned => Eff.lift (clean_step current_time comp cleaned)) [];
         save_competition_data cleaned_competitions
     end)
    (fun _ => mret tt).

End Program.
End Main.

(** ** [src/bot/contest_noti_slackbot.py] *)

Module Slackbot.
Import Common.

Section Program.
Variable L : library.
Variable W : world.

Definition load_competition_data : M (list pydict) := Common.load_competition_data.

Definition save_competition_data (competitions : list pydict) : M unit :=
  Common.save_competition_data competitions.

(** [find_new_competitions(current_competitions, previous_competitions)] *)
Definition find_new_competitions (current_competitions previous_competitions : list pydict) :
    result (list pydict) :=
  current_urls ← Py.set_of (fun comp => Py.getitem comp "url") current_competitions;
  previous_urls ← Py.set_of (fun comp => Py.getitem comp "url") previous_competitions;
  let new_urls := current_urls ∖ previous_urls in
  select_new current_competitions new_urls.

(** The body of the loop of [get_kaggle_competitions]. *)
Definition kaggle_step (comp : kaggle_item) (competition_list : list pydict) :
    M (list pydict) :=
  t ← Eff.now W;
  open ← Eff.lift (deadline_after comp t);
  if open : bool then
    url ← Eff.lift (competition_url comp);
    deadline_str ← Eff.lift (deadline_string L comp);
    mret (competition_list ++
      [ (list_to_map
           [ ("platform", VStr (u8 "Kaggle"));
             ("name", title comp);
             ("description", description comp);
             ("url", VStr url);
             ("deadline", VStr deadline_str);
             ("category", category comp);
             ("reward", VStr (u8 "$" ++ Py.format (reward comp))) ] : pydict) ])
  else mret competition_list.

Definition get_kaggle_competitions : M (list pydict) :=
  Eff.try_except
    (_ ← Eff.kaggle_authenticate W;
     competitions ← Eff.kaggle_competitions_list W;
     Eff.for_each competitions kaggle_step [])
    (fun _ => mret []).

Definition get_competition_period (detail_url : str) : M pyval :=
  Eff.try_except
    (soup ← Eff.get_page W detail_url;
     match find_string has_period_label (strings soup) with
     | Some period_text =>
         mret (VStr (PyStr.strip (PyStr.replace period_text PERIOD_PREFIX [])))
     | None => mret (VStr PERIOD_NOT_FOUND)
     end)
    (fun _ => mret VNone).

(** The body of the loop of [get_dacon_competitions]. *)
Definition dacon_step (comp : entry) (active_competitions : list pydict) :
    M (list pydict) :=
  match dday comp with
  | Some status =>
      if PyStr.contains STATUS_OPEN status then
        name ← Eff.lift (text_of (name_p comp));
        keywords ← Eff.lift (text_of (keyword_p comp));
        relative_link ←
          match link_a comp with
          | Some href => mret href
          | None => Eff.raise AttributeError
          end;
        let full_link := urljoin_val L DACON_BASE relative_link in
        let schedule_url := PyStr.rstrip full_link (u8 "/") ++ u8 "/schedule" in
        period ← get_competition_period schedule_url;
        mret (active_competitions ++
          [ (list_to_map
               [ ("platform", VStr (u8 "Dacon"));
                 ("name", VStr (PyStr.strip name));
                 ("keywords", VStr (PyStr.strip keywords));
                 ("url", VStr full_link);
                 ("period", period) ] : pydict) ])
      else mret active_competitions
  | None => mret active_competitions
  end.

Definition get_dacon_competitions : M (list pydict) :=
  Eff.try_except
    (soup ← Eff.get_page W DACON_MAIN;
     Eff.for_each (comps soup) dacon_step [])
    (fun _ => mret []).

(** A section block with one markdown text. *)
Definition mrkdwn (s : str) : json :=
  JDict [ ("type", JStr (u8 "mrkdwn")); ("text", JStr s) ].

(** The fallback text of the notification of a competition. *)
Definition notification_text (competition : pydict) : result str :=
  platform ← Py.getitem competition "platform";
  name ← Py.getitem competition "name";
  Ok (u8 "새로운 " ++ Py.format platform ++ u8 " 대회: " ++ Py.format name).

(** [format_slack_message(competition)["blocks"]] *)
Definition format_slack_message (competition : pydict) : result (list json) :=
  platform ← Py.getitem competition "platform";
  name ← Py.getitem competition "name";
  let header :=
    JDict [ ("type", JStr (u8 "header"));
            ("text", JDict
               [ ("type", JStr (u8 "plain_text"));
                 ("text", JStr (u8 "🏆 새로운 " ++ Py.format platform
                                 ++ u8 " 대회: " ++ Py.format name)) ]) ] in
  let none := VStr (u8 "없음") in
  body ←
    (if bool_decide (platform = VStr (u8 "Kaggle")) then
       short ← Py.slice_to (Py.get competition "description" (VStr (u8 "설명 없음"))) 300;
       Ok [ JDict [ ("type", JStr (u8 "section"));
                    ("text", mrkdwn (u8 "*설명*: " ++ short ++ u8 "...")) ];
            JDict [ ("type", JStr (u8 "section"));
                    ("fields", JList
                       [ mrkdwn (u8 "*카테고리*: "
                                 ++ Py.format (Py.get competition "category" none));
                         mrkdwn (u8 "*상금*: "
                                 ++ Py.format (Py.get competition "reward" none));
                         mrkdwn (u8 "*마감일*: "
                                 ++ Py.format (Py.get competition "deadline" none)) ]) ] ]
     else
       Ok [ JDict [ ("type", JStr (u8 "section"));
                    ("text", mrkdwn (u8 "*키워드*: "
                                     ++ Py.format (Py.get competition "keywords" none))) ];
            JDict [ ("type", JStr (u8 "section"));
                    ("text", mrkdwn (u8 "*기간*: "
                                     ++ Py.format (Py.get competition "period" none))) ] ]);
  let actions :=
    JDict [ ("type", JStr (u8 "actions"));
            ("elements", JList
               [ JDict
                   [ ("type", JStr (u8 "button"));
                     ("text", JDict
                        [ ("type", JStr (u8 "plain_text"));
                          ("text", JStr (u8 "대회 페이지 방문")) ]);
                     ("url", json_of (Py.get competition "url" (VStr []))) ] ]) ] in
  Ok ([header] ++ body ++ [actions]).

(** Only [SlackApiError] is handled by the two senders. *)
Definition on_slack_error (e : exn) : M bool :=
  match e with
  | SlackApiError => mret false
  | _ => Eff.raise e
  end.

(** The arguments [send_slack_notification] passes to Slack. *)
Definition notification (competition : pydict) : result message :=
  message_blocks ← format_slack_message competition;
  fallback ← notification_text competition;
  Ok {| blocks := message_blocks; text := fallback; unfurl := None |}.

(** [send_slack_notification(competition)] *)
Definition send_slack_notification (competition : pydict) : M bool :=
  Eff.try_except
    (message ← Eff.lift (notification competition);
     _ ← Eff.post W message;
     mret true)
    on_slack_error.

(** The message of a cycle without a new competition. *)
Definition no_competition_message : message :=
  {| blocks :=
       [ JDict [ ("type", JStr (u8 "section"));
                 ("text", mrkdwn (u8 "🔍 *대회 알림 업데이트*" ++ nl
                                  ++ u8 "현재 새로운 대회가 없습니다. "
                                  ++ u8 "다음 업데이트를 기다려주세요!")) ] ];
     text := u8 "새로운 대회가 없습니다.";
     unfurl := None |}.

(** [send_no_competition_notification()] *)
Definition send_no_competition_notification : M bool :=
  Eff.try_except
    (_ ← Eff.post W no_competition_message; mret true)
    on_slack_error.

(** [check_new_competitions()] *)
Definition check_new_competitions : M unit :=
  previous_competitions ← load_competition_data;
  current_kaggle ← get_kaggle_competitions;
  current_dacon ← get_dacon_competitions;
  let current_competitions := current_kaggle ++ current_dacon in
  new_competitions ←
    Eff.lift (find_new_competitions current_competitions previous_competitions);
  _ ← save_competition_data current_competitions;
  match new_competitions with
  | _ :: _ =>
      Eff.for_each new_competitions
        (fun comp _ => _ ← send_slack_notification comp; mret tt) tt
  | [] =>
      _ ← send_no_competition_notification; mret tt
  end.

End Program.
End Slackbot.

(** ** A sample library and sample worlds, to run the programs *)

Module Sample.

(** The decimal digit of weight [10^k] of [n], as a character. *)
Definition digit_at (k : Z) (n : Z) : Z := 48 + (n / 10 ^ k) mod 10.

Definition pad2 (n : Z) : str := [digit_at 1 n; digit_at 0 n].
Definition pad4 (n : Z) : str := [digit_at 3 n; digit_at 2 n; digit_at 1 n; digit_at 0 n].

(** The canonical rendering ["YYYY-MM-DD HH:MM:SS UTC"]. *)
Definition render_utc (d : datetime) : str :=
  pad4 (year d) ++ u8 "-" ++ pad2 (month d) ++ u8 "-" ++ pad2 (day d) ++ u8 " "
  ++ pad2 (hour d) ++ u8 ":" ++ pad2 (minute d) ++ u8 ":" ++ pad2 (second d)
  ++ u8 " UTC".

Definition digit_value (c : Z) : option Z :=
  if (48 <=? c) && (c <=? 57) then Some (c - 48) else None.

Fixpoint number_from (acc : Z) (ds : str) : option Z :=
  match ds with
  | [] => Some acc
  | c :: ds' =>
      match digit_value c with
      | Some v => number_from (acc * 10 + v) ds'
      | None => None
      end
  end.

(** The characters [i, i+n) of [s] read as a number. *)
Definition number (s : str) (i n : nat) : option Z :=
  let ds := take n (drop i s) in
  if (length ds =? n)%nat then number_from 0 ds else None.

Definition leap (y : Z) : bool :=
  ((y mod 4 =? 0) && negb (y mod 100 =? 0)) || (y mod 400 =? 0).

Definition days_in_month (y m : Z) : Z :=
  if m =? 2 then (if leap y then 29 else 28)
  else if (m =? 4) || (m =? 6) || (m =? 9) || (m =? 11) then 30
  else 31.

(** A parser of the canonical rendering (fixed widths); every other string
    is refused. *)
Definition parse_utc (s : str) : option datetime :=
  if negb ((length s =? 23)%nat) then None else
  if negb (bool_decide (take 1 (drop 4 s) = u8 "-")
           && bool_decide (take 1 (drop 7 s) = u8 "-")
           && bool_decide (take 1 (drop 10 s) = u8 " ")
           && bool_decide (take 1 (drop 13 s) = u8 ":")
           && bool_decide (take 1 (drop 16 s) = u8 ":")
           && bool_decide (drop 19 s = u8 " UTC")) then None else
  y ← number s 0 4;
  m ← number s 5 2;
  d ← number s 8 2;
  h ← number s 11 2;
  mi ← number s 14 2;
  sec ← number s 17 2;
  if (1 <=? y) && (1 <=? m) && (m <=? 12) && (1 <=? d) && (d <=? days_in_month y m)
     && (h <=? 23) && (mi <=? 59) && (sec <=? 59)
  then Some {| year := y; month := m; day := d;
               hour := h; minute := mi; second := sec; microsecond := 0 |}
  else None.

(** A join for a base without path and a link that is absolute or starts
    at the root. *)
Definition join_root (base url : str) : str :=
  if PyStr.startswith url (u8 "http") then url else base ++ url.

Definition lib : library :=
  {| unicode_nd := fun _ => false;
     urljoin := join_root;
     strptime := parse_utc;
     strftime := render_utc |}.

Definition at_time (y mo d h mi s : Z) : datetime :=
  {| year := y; month := mo; day := d;
     hour := h; minute := mi; second := s; microsecond := 0 |}.

(** A page that holds only text nodes. *)
Definition text_page (nodes : list str) : document :=
  {| strings := nodes; og_image := None; logo_img := None;
     header_img := None; data_src_img := None; comps := [] |}.

(** A listing page. *)
Definition listing_page (entries : list entry) : document :=
  {| strings := []; og_image := None; logo_img := None;
     header_img := None; data_src_img := None; comps := entries |}.

(** The schedule page of the specification. *)
Definition schedule_page : document :=
  text_page [ u8 "일정"; u8 "- 대회 기간 : 2024.01.01 10:00 ~ 2024.01.31 18:00" ].

(** The text of that period with any number of spaces before the label,
    around the tilde and at the end. *)
Definition spaced_period (n1 n2 n3 n4 : nat) : str :=
  replicate n1 32 ++ Common.PERIOD_PREFIX ++ u8 "2024.01.01 10:00" ++ replicate n2 32
  ++ u8 "~" ++ replicate n3 32 ++ u8 "2024.01.31 18:00" ++ replicate n4 32.

Definition entry_a : entry :=
  {| dday := Some (u8 "참가신청중");
     name_p := Some (u8 " 대회 A ");
     keyword_p := Some (u8 "분류");
     link_a := Some (VStr (u8 "/competitions/a"));
     img := None |}.

Definition item_b : kaggle_item :=
  {| title := VStr (u8 "B");
     ref := VStr (u8 "b");
     deadline := Some (at_time 2030 1 1 0 0 0);
     category := VStr (u8 "Featured");
     reward := VStr (u8 "100");
     description := VStr (u8 "about b") |}.


(** Dacon lists one open competition, Kaggle one; Slack accepts. *)
Definition online : world :=
  {| authenticate := Ok tt;
     competitions_list := Ok [item_b];
     requests_get := fun url =>
       if bool_decide (url = u8 "https://dacon.io/competitions")
       then Ok (listing_page [entry_a])
       else if bool_decide (url = u8 "https://dacon.io/competitions/a/schedule")
       then Ok schedule_page
       else Raise RequestException;
     chat_postMessage := fun _ => Ok true;
     clock := fun _ => at_time 2024 1 15 12 0 0 |}.

(** Two records known by their identity only. *)
Definition rec_a : pydict := {[ "url" := VStr (u8 "https://x/a") ]}.
Definition rec_b : pydict := {[ "url" := VStr (u8 "https://x/b") ]}.

(** A stored Kaggle record with the given [deadline] entry. *)
Definition kaggle_record (name : string) (deadline_entry : pyval) : pydict :=
  list_to_map
    [ ("platform", VStr (u8 "Kaggle")); ("name", VStr (u8 name));
      ("url", VStr (u8 "https://www.kaggle.com/competitions/" ++ u8 name));
      ("deadline", deadline_entry) ].

(** A stored Dacon record: it has a period and no deadline. *)
Definition dacon_record : pydict :=
  list_to_map
    [ ("platform", VStr (u8 "Dacon")); ("name", VStr (u8 "A"));
      ("url", VStr (u8 "https://dacon.io/competitions/a"));
      ("period", VStr (u8 "2024.01.01 ~ 2024.01.31")) ].

(** The clock of the sample worlds reads 2024-01-15 12:00:00. *)
Definition one_second_ahead : pydict :=
  kaggle_record "ahead" (VStr (u8 "2024-01-15 12:00:01 UTC")).
Definition one_second_ago : pydict :=
  kaggle_record "ago" (VStr (u8 "2024-01-15 11:59:59 UTC")).
Definition no_deadline : pydict :=
  delete "deadline" (kaggle_record "bare" VNone).
Definition bad_deadline : pydict :=
  kaggle_record "bad" (VStr (u8 "tomorrow")).

Definition start (f : file_state) : state :=
  {| file := f; ticks := O; trace := [] |}.

End Sample.

(** ** Vocabulary of the statements *)

Module Spec.

(** The identity of a record is its [url] entry. *)
Definition identity (c : pydict) : option pyval := c !! "url".

Definition has_url (c : pydict) : Prop := is_Some (identity c).

(** The identity of [c] is the identity of a record of [previous]. *)
Definition known (previous : list pydict) (c : pydict) : Prop :=
  identity c ∈ identity <$> previous.

#[global] Instance known_dec previous c : Decision (known previous c).
Proof. unfold known. apply _. Defined.

(** A checkpoint the diff can be computed against: every stored record
    has an identity. An absent or unreadable file is read as empty. *)
Definition checkpoint_ok (f : file_state) : Prop :=
  match f with
  | FileData data => Forall has_url data
  | _ => True
  end.

(** The phases of a cycle, as classes of external calls. *)
Definition is_read (e : event) : Prop :=
  match e with EvRead => True | _ => False end.
Definition is_fetch (e : event) : Prop :=
  match e with EvAuth | EvList | EvGet _ => True | _ => False end.
Definition is_write (e : event) : Prop :=
  match e with EvWrite _ => True | _ => False end.
Definition is_post (e : event) : Prop :=
  match e with EvPost _ => True | _ => False end.

(** The messages posted in a trace, in order. *)
Definition posts (evs : list event) : list message :=
  omap (fun e => match e with EvPost m => Some m | _ => None end) evs.

(** The checkpoints written in a trace, in order. *)
Definition writes (evs : list event) : list (list pydict) :=
  omap (fun e => match e with EvWrite d => Some d | _ => None end) evs.

(** [evs] runs through the phases in order: it is the concatenation of one
    (possibly empty) segment per phase. *)
Fixpoint in_phases (phases : list (event -> Prop)) (evs : list event) : Prop :=
  match phases with
  | [] => evs = []
  | p :: phases' =>
      exists a b, evs = a ++ b /\ Forall p a /\ in_phases phases' b
  end.

(** [st'] comes from [st] by external calls of class [P] only, and the
    checkpoint file is the same. *)
Definition extends (P : event -> Prop) (st st' : state) : Prop :=
  file st' = file st /\ exists evs, trace st' = trace st ++ evs /\ Forall P evs.

(** Every run of [m] relates the states by [R], and a value it returns
    satisfies [Q]. *)
Definition respects {A} (R : state -> state -> Prop) (Q : A -> Prop) (m : M A) : Prop :=
  forall st, R st (m st).2 /\ forall a, (m st).1 = Ok a -> Q a.

(** [m] returns a value from every state. *)
Definition total {A} (m : M A) : Prop :=
  forall st, exists a, (m st).1 = Ok a.

(** No message is posted before a checkpoint is written: whatever precedes
    a post contains a write. *)
Definition persisted_before_notifying (evs : list event) : Prop :=
  forall pre m post, evs = pre ++ EvPost m :: post -> writes pre <> [].

(** The rendering of a result as an option. *)
Definition ok_value {A} (r : result A) : option A :=
  match r with Ok a => Some a | Raise _ => None end.

(** The record comes from the platform that gives an absolute deadline. *)
Definition is_kaggle (c : pydict) : Prop :=
  c !! "platform" = Some (VStr (u8 "Kaggle")).

(** The absolute deadline of a stored record: its [deadline] entry, when it
    is a string of the format of the bot. *)
Definition deadline_of (L : library) (c : pydict) : option datetime :=
  match c !! "deadline" with
  | Some (VStr s) => strptime L s
  | _ => None
  end.

(** A record the retention pass can examine: it names its platform, and a
    Kaggle record has an absolute deadline. *)
Definition examinable (L : library) (c : pydict) : Prop :=
  is_Some (c !! "platform") /\ (is_kaggle c -> is_Some (deadline_of L c)).

(** The retention rule: a Kaggle record is kept when its deadline is after
    [now], every other record is kept. *)
Definition retained (L : library) (now : datetime) (c : pydict) : bool :=
  if decide (is_kaggle c) then
    match deadline_of L c with
    | Some d => Datetime.gt d now
    | None => false
    end
  else true.

(** The content of the checkpoint as a cycle loads it. *)
Definition stored (f : file_state) : list pydict :=
  match f with
  | FileData data => data
  | _ => []
  end.

(** The first phases of a cycle of [main.py]: the checkpoint that is loaded
    and the list the two fetchers return together. *)
Definition main_gather (L : library) (W : world) : M (list pydict * list pydict) :=
  previous ← Main.load_competition_data;
  kaggle ← Main.get_kaggle_competitions L W;
  dacon ← Main.get_dacon_competitions L W;
  mret (previous, ([] ++ kaggle) ++ dacon).

(** The same phases of a cycle of [contest_noti_slackbot.py]. *)
Definition slackbot_gather (L : library) (W : world) : M (list pydict * list pydict) :=
  previous ← Slackbot.load_competition_data;
  kaggle ← Slackbot.get_kaggle_competitions L W;
  dacon ← Slackbot.get_dacon_competitions L W;
  mret (previous, kaggle ++ dacon).

(** The messages of the records of [new] that render, in order. *)
Definition rendered (render : pydict -> result message) (new : list pydict) :
    list message :=
  omap (fun c => ok_value (render c)) new.

(** The notification of [c] renders and Slack answers it or refuses it
    with [SlackApiError]. *)
Definition deliverable (W : world) (c : pydict) : Prop :=
  exists m, Slackbot.notification c = Ok m /\
            forall e, chat_postMessage W m = Raise e -> e = SlackApiError.

(** The record comes from a listed competition: its identity is the URL
    computed from the reference of that competition. *)
Definition from_listing (W : world) (rec : pydict) : Prop :=
  exists items item u,
    competitions_list W = Ok items /\ item ∈ items /\
    Common.competition_url item = Ok u /\ identity rec = Some (VStr u).

(** The state of the retention pass once the checkpoint is loaded and the
    clock is read. *)
Definition cleaning (st : state) : state :=
  {| file := file st; ticks := S (ticks st); trace := trace st ++ [EvRead] |}.

(** The state once [evs] are appended to the trace. *)
Definition with_events (st : state) (evs : list event) : state :=
  {| file := file st; ticks := ticks st; trace := trace st ++ evs |}.

(** The state once the checkpoint [data] is written. *)
Definition after_write (st : state) (data : list pydict) : state :=
  {| file := FileData data; ticks := ticks st; trace := trace st ++ [EvWrite data] |}.

End Spec.

(** * Properties *)

Import Spec.

(** ** The diff *)

Lemma getitem_some (c : pydict) k v : c !! k = Some v -> Py.getitem c k = Ok v.
Proof. unfold Py.getitem. by intros ->. Qed.

Lemma getitem_none (c : pydict) k : c !! k = None -> Py.getitem c k = Raise KeyError.
Proof. unfold Py.getitem. by intros ->. Qed.

Lemma set_of_urls (l : list pydict) :
  Forall has_url l ->
  exists s : gset pyval,
    Py.set_of (fun comp => Py.getitem comp "url") l = Ok s /\
    forall v, v ∈ s <-> exists c, c ∈ l /\ identity c = Some v.
Proof.
  induction 1 as [|c l [v Hv] _ (s & Hs & Hin)].
  - exists ∅. split; [reflexivity|].
    intros v. split; [set_solver|]. intros (c & Hc & _). by apply elem_of_nil in Hc.
  - cbn [Py.set_of]. rewrite (getitem_some _ _ _ Hv), Hs.
    exists ({[v]} ∪ s). split; [reflexivity|].
    intros w. rewrite elem_of_union, elem_of_singleton, Hin. split.
    + intros [->|(c' & Hc' & Hw)].
      * exists c. split; [left|exact Hv].
      * exists c'. split; [by right|exact Hw].
    + intros (c' & Hc' & Hw). apply elem_of_cons in Hc' as [->|Hc'].
      * left. congruence.
      * right. eauto.
Qed.

Lemma select_new_filter (current : list pydict) (new_urls : gset pyval)
    (P : pydict -> Prop) `{!forall c, Decision (P c)} :
  Forall has_url current ->
  (forall c v, c ∈ current -> identity c = Some v -> (v ∈ new_urls <-> P c)) ->
  Common.select_new current new_urls = Ok (filter P current).
Proof.
  unfold Common.select_new.
  induction 1 as [|c l [v Hv] _ IH]; intros HP; [reflexivity|].
  cbn [Py.filter_list]. rewrite (getitem_some _ _ _ Hv).
  rewrite IH by (intros; eapply HP; [by right|done]).
  rewrite filter_cons.
  specialize (HP c v (ltac:(left)) Hv).
  destruct (decide (P c)) as [Hc|Hc]; cbn.
  - rewrite bool_decide_eq_true_2 by (by apply HP). reflexivity.
  - rewrite bool_decide_eq_false_2 by (by rewrite HP). reflexivity.
Qed.

Lemma known_iff (previous : list pydict) (c : pydict) v :
  identity c = Some v ->
  known previous c <-> exists p, p ∈ previous /\ identity p = Some v.
Proof.
  intros Hv. unfold known. rewrite Hv, list_elem_of_fmap. split.
  - intros (p & Hp & Hin). eauto.
  - intros (p & Hin & Hp). eauto.
Qed.

Lemma diff_is_filter (current previous : list pydict) :
  Forall has_url current -> Forall has_url previous ->
  Main.get_new_competitions current previous
    = Ok (filter (fun c => ¬ known previous c) current) /\
  Slackbot.find_new_competitions current previous
    = Ok (filter (fun c => ¬ known previous c) current).
Proof.
  intros Hc Hp.
  destruct (set_of_urls _ Hc) as (cs & Hcs & Hcin).
  destruct (set_of_urls _ Hp) as (ps & Hps & Hpin).
  assert (Hsel : Common.select_new current (cs ∖ ps)
                 = Ok (filter (fun c => ¬ known previous c) current)).
  { apply select_new_filter; [exact Hc|].
    intros c v Hin Hv. rewrite elem_of_difference, Hcin, Hpin, (known_iff _ _ _ Hv).
    split; [tauto|]. intros Hn. split; [eauto|exact Hn]. }
  unfold Main.get_new_competitions, Slackbot.find_new_competitions.
  rewrite Hcs, Hps. cbn. auto.
Qed.

(** ** Reasoning about runs *)

Lemma run_bind {A B} (m : M A) (f : A -> M B) st :
  (m ≫= f) st =
  match m st with
  | (Ok a, st') => f a st'
  | (Raise e, st') => (Raise e, st')
  end.
Proof. reflexivity. Qed.

Lemma run_try {A} (body : M A) (h : exn -> M A) st :
  Eff.try_except body h st =
  match body st with
  | (Ok a, st') => (Ok a, st')
  | (Raise e, st') => h e st'
  end.
Proof. reflexivity. Qed.

Lemma run_ret {A} (a : A) st : (mret a : M A) st = (Ok a, st).
Proof. reflexivity. Qed.

Lemma extends_refl P st : extends P st st.
Proof. split; [reflexivity|]. exists []. by rewrite app_nil_r. Qed.

Lemma extends_trans P st1 st2 st3 :
  extends P st1 st2 -> extends P st2 st3 -> extends P st1 st3.
Proof.
  intros [Hf1 (e1 & Ht1 & HP1)] [Hf2 (e2 & Ht2 & HP2)]. split; [congruence|].
  exists (e1 ++ e2). rewrite Ht2, Ht1, <- app_assoc. split; [reflexivity|].
  by apply Forall_app.
Qed.

Lemma extends_weaken (P Q : event -> Prop) st st' :
  (forall e, P e -> Q e) -> extends P st st' -> extends Q st st'.
Proof.
  intros HPQ [Hf (evs & Ht & HP)]. split; [exact Hf|].
  exists evs. split; [exact Ht|]. eapply Forall_impl; eauto.
Qed.

Section Respects.
Variable Ev : event -> Prop.

Lemma respects_ret {A} (Q : A -> Prop) a : Q a -> respects (extends Ev) Q (mret a).
Proof. intros Ha st. split; [apply extends_refl|]. intros a' [= <-]. exact Ha. Qed.

Lemma respects_raise {A} (Q : A -> Prop) e : respects (extends Ev) Q (Eff.raise e).
Proof. intros st. split; [apply extends_refl|]. intros a' [=]. Qed.

Lemma respects_lift {A} (Q : A -> Prop) (r : result A) :
  (forall a, r = Ok a -> Q a) -> respects (extends Ev) Q (Eff.lift r).
Proof. intros Hr st. split; [apply extends_refl|]. exact Hr. Qed.

Lemma respects_bind {A B} (P : A -> Prop) (Q : B -> Prop) (m : M A) (f : A -> M B) :
  respects (extends Ev) P m -> (forall a, P a -> respects (extends Ev) Q (f a)) ->
  respects (extends Ev) Q (m ≫= f).
Proof.
  intros Hm Hf st. rewrite run_bind. destruct (Hm st) as [HR HP].
  destruct (m st) as [[a|e] st']; cbn in *.
  - destruct (Hf a (HP a eq_refl) st') as [HR' HQ].
    split; [eapply extends_trans; eassumption|exact HQ].
  - split; [exact HR|]. intros b [=].
Qed.

Lemma respects_try {A} (Q : A -> Prop) (body : M A) (h : exn -> M A) :
  respects (extends Ev) Q body -> (forall e, respects (extends Ev) Q (h e)) ->
  respects (extends Ev) Q (Eff.try_except body h).
Proof.
  intros Hm Hh st. rewrite run_try. destruct (Hm st) as [HR HP].
  destruct (body st) as [[a|e] st']; cbn in *.
  - split; [exact HR|exact HP].
  - destruct (Hh e st') as [HR' HQ].
    split; [eapply extends_trans; eassumption|exact HQ].
Qed.

Lemma respects_for_each {A B} (Inv : B -> Prop) (l : list A) (body : A -> B -> M B) acc :
  Inv acc ->
  (forall x b, x ∈ l -> Inv b -> respects (extends Ev) Inv (body x b)) ->
  respects (extends Ev) Inv (Eff.for_each l body acc).
Proof.
  revert acc. induction l as [|x l IH]; intros acc Hacc Hbody; cbn [Eff.for_each].
  - by apply respects_ret.
  - eapply respects_bind.
    + apply Hbody; [left|exact Hacc].
    + intros b Hb. apply IH; [exact Hb|]. intros y b' Hy. apply Hbody. by right.
Qed.

Lemma respects_weaken {A} (P Q : A -> Prop) (m : M A) :
  (forall a, P a -> Q a) -> respects (extends Ev) P m -> respects (extends Ev) Q m.
Proof. intros HPQ Hm st. destruct (Hm st) as [HR HP]. split; eauto. Qed.

End Respects.

Lemma total_try {A} (body : M A) (h : exn -> M A) :
  (forall e, total (h e)) -> total (Eff.try_except body h).
Proof.
  intros Hh st. rewrite run_try. destruct (body st) as [[a|e] st']; [by exists a|].
  apply Hh.
Qed.

Lemma total_ret {A} (a : A) : total (mret a : M A).
Proof. intros st. by exists a. Qed.

Lemma respects_emit (P : event -> Prop) ev :
  P ev -> respects (extends P) (fun _ => True) (Eff.emit ev).
Proof.
  intros Hev st. split; [|done]. split; [reflexivity|].
  exists [ev]. split; [reflexivity|]. by constructor.
Qed.

Lemma respects_now (P : event -> Prop) W :
  respects (extends P) (fun _ => True) (Eff.now W).
Proof.
  intros st. split; [|done]. split; [reflexivity|].
  exists []. split; [by rewrite app_nil_r|constructor].
Qed.

Create HintDb bot.

Lemma respects_get_page W url :
  respects (extends is_fetch) (fun _ => True) (Eff.get_page W url).
Proof.
  unfold Eff.get_page. eapply respects_bind.
  - apply respects_emit. exact I.
  - intros _ _. apply respects_lift; auto with bot.
Qed.

Lemma respects_authenticate W :
  respects (extends is_fetch) (fun _ => True) (Eff.kaggle_authenticate W).
Proof.
  unfold Eff.kaggle_authenticate. eapply respects_bind.
  - apply respects_emit. exact I.
  - intros _ _. apply respects_lift; auto with bot.
Qed.

Lemma respects_competitions_list W :
  respects (extends is_fetch) (fun _ => True) (Eff.kaggle_competitions_list W).
Proof.
  unfold Eff.kaggle_competitions_list. eapply respects_bind.
  - apply respects_emit. exact I.
  - intros _ _. apply respects_lift; auto with bot.
Qed.

(** ** The fetchers *)

Lemma from_listing_has_url W rec : from_listing W rec -> has_url rec.
Proof. intros (_ & _ & u & _ & _ & _ & Hu). unfold has_url. by rewrite Hu. Qed.

Ltac run_step :=
  lazymatch goal with
  | |- forall _, _ => intros
  | |- respects _ _ (mret _) => apply respects_ret; auto with bot
  | |- respects _ _ (Eff.raise _) => apply respects_raise; auto with bot
  | |- respects _ _ (Eff.lift _) => apply respects_lift; auto with bot
  | |- respects _ _ (Eff.try_except _ _) => apply respects_try; auto with bot
  | |- respects _ _ (Eff.now _) => apply respects_now
  | |- respects _ _ (Eff.get_page _ _) => apply respects_get_page
  | |- respects _ _ (Eff.kaggle_authenticate _) => apply respects_authenticate
  | |- respects _ _ (Eff.kaggle_competitions_list _) => apply respects_competitions_list
  | |- respects _ _ (_ ≫= _) => eapply respects_bind
  | |- respects _ _ (if ?b then _ else _) => destruct b
  | |- respects _ _ (match ?x with _ => _ end) => destruct x
  end.

Lemma main_scrape_image L W url :
  respects (extends is_fetch) (fun _ => True) (Main.scrape_image L W url).
Proof. unfold Main.scrape_image. repeat run_step. Qed.

Lemma main_kaggle_step L W items item acc :
  competitions_list W = Ok items -> item ∈ items ->
  Forall (from_listing W) acc ->
  respects (extends is_fetch) (Forall (from_listing W)) (Main.kaggle_step L W item acc).
Proof.
  intros Hl Hin Hacc. unfold Main.kaggle_step.
  run_step; [run_step|]. intros t _.
  run_step; [run_step; intros; exact I|]. intros open _.
  destruct open; [|by run_step].
  eapply respects_bind.
  { apply respects_lift with (Q := fun u => Common.competition_url item = Ok u); auto with bot. }
  intros u Hu.
  run_step; [apply main_scrape_image|]. intros image _.
  run_step; [run_step; intros; exact I|]. intros ds _.
  run_step. apply Forall_app. split; [exact Hacc|]. constructor; [|constructor].
  exists items, item, u. repeat split; try done.
Qed.

Lemma main_get_kaggle L W :
  respects (extends is_fetch) (Forall (from_listing W)) (Main.get_kaggle_competitions L W).
Proof.
  unfold Main.get_kaggle_competitions.
  apply respects_try; [|intros; apply respects_ret; constructor].
  eapply respects_bind; [apply respects_authenticate|]. intros _ _.
  eapply respects_bind.
  { unfold Eff.kaggle_competitions_list.
    eapply respects_bind; [apply respects_emit; exact I|]. intros _ _.
    apply respects_lift with (Q := fun items => competitions_list W = Ok items). auto. }
  intros items Hitems. apply respects_for_each; [constructor|].
  intros item acc Hin Hacc. cbn beta in Hitems. eapply main_kaggle_step; eassumption.
Qed.

Lemma slackbot_kaggle_step L W items item acc :
  competitions_list W = Ok items -> item ∈ items ->
  Forall (from_listing W) acc ->
  respects (extends is_fetch) (Forall (from_listing W)) (Slackbot.kaggle_step L W item acc).
Proof.
  intros Hl Hin Hacc. unfold Slackbot.kaggle_step.
  run_step; [run_step|]. intros t _.
  run_step; [run_step; intros; exact I|]. intros open _.
  destruct open; [|by run_step].
  eapply respects_bind.
  { apply respects_lift with (Q := fun u => Common.competition_url item = Ok u); auto. }
  intros u Hu.
  run_step; [run_step; intros; exact I|]. intros ds _.
  run_step. apply Forall_app. split; [exact Hacc|]. constructor; [|constructor].
  exists items, item, u. repeat split; try done.
Qed.

Lemma slackbot_get_kaggle L W :
  respects (extends is_fetch) (Forall (from_listing W)) (Slackbot.get_kaggle_competitions L W).
Proof.
  unfold Slackbot.get_kaggle_competitions.
  apply respects_try; [|intros; apply respects_ret; constructor].
  eapply respects_bind; [apply respects_authenticate|]. intros _ _.
  eapply respects_bind.
  { unfold Eff.kaggle_competitions_list.
    eapply respects_bind; [apply respects_emit; exact I|]. intros _ _.
    apply respects_lift with (Q := fun items => competitions_list W = Ok items). auto. }
  intros items Hitems. apply respects_for_each; [constructor|].
  intros item acc Hin Hacc. cbn beta in Hitems. eapply slackbot_kaggle_step; eassumption.
Qed.

Lemma main_get_period L W url :
  respects (extends is_fetch) (fun _ => True) (Main.get_competition_period L W url).
Proof. unfold Main.get_competition_period. repeat run_step. Qed.

Lemma slackbot_get_period W url :
  respects (extends is_fetch) (fun _ => True) (Slackbot.get_competition_period W url).
Proof. unfold Slackbot.get_competition_period. repeat run_step. Qed.

Lemma main_dacon_step L W e acc :
  Forall has_url acc ->
  respects (extends is_fetch) (Forall has_url) (Main.dacon_step L W e acc).
Proof.
  intros Hacc. unfold Main.dacon_step, Main.dacon_entry.
  apply respects_try; [|by intros; apply respects_ret].
  destruct (dday e) as [status|]; [|by apply respects_ret].
  destruct (PyStr.contains _ _); [|by apply respects_ret].
  run_step; [run_step; intros; exact I|]. intros name _.
  run_step; [run_step; intros; exact I|]. intros keywords _.
  run_step; [destruct (link_a e); run_step; exact I|]. intros href _.
  run_step; [apply main_get_period|]. intros period _.
  run_step. apply Forall_app. split; [exact Hacc|]. constructor; [|constructor].
  by eexists.
Qed.

Lemma main_get_dacon L W :
  respects (extends is_fetch) (Forall has_url) (Main.get_dacon_competitions L W).
Proof.
  unfold Main.get_dacon_competitions.
  apply respects_try; [|intros; apply respects_ret; constructor].
  eapply respects_bind; [apply respects_get_page|]. intros soup _.
  apply respects_for_each; [constructor|].
  intros e acc _ Hacc. by apply main_dacon_step.
Qed.

Lemma slackbot_dacon_step L W e acc :
  Forall has_url acc ->
  respects (extends is_fetch) (Forall has_url) (Slackbot.dacon_step L W e acc).
Proof.
  intros Hacc. unfold Slackbot.dacon_step.
  destruct (dday e) as [status|]; [|by apply respects_ret].
  destruct (PyStr.contains _ _); [|by apply respects_ret].
  run_step; [run_step; intros; exact I|]. intros name _.
  run_step; [run_step; intros; exact I|]. intros keywords _.
  run_step; [destruct (link_a e); run_step; exact I|]. intros href _.
  run_step; [apply slackbot_get_period|]. intros period _.
  run_step. apply Forall_app. split; [exact Hacc|]. constructor; [|constructor].
  by eexists.
Qed.

Lemma slackbot_get_dacon L W :
  respects (extends is_fetch) (Forall has_url) (Slackbot.get_dacon_competitions L W).
Proof.
  unfold Slackbot.get_dacon_competitions.
  apply respects_try; [|intros; apply respects_ret; constructor].
  eapply respects_bind; [apply respects_get_page|]. intros soup _.
  apply respects_for_each; [constructor|].
  intros e acc _ Hacc. by apply slackbot_dacon_step.
Qed.

(** The four fetchers and the two period extractors end with a handler
    that returns: they return from every state. *)
Lemma fetchers_total L W :
  total (Main.get_kaggle_competitions L W) /\
  total (Main.get_dacon_competitions L W) /\
  total (Slackbot.get_kaggle_competitions L W) /\
  total (Slackbot.get_dacon_competitions L W).
Proof. repeat split; apply total_try; intros; apply total_ret. Qed.

Lemma load_spec st :
  exists previous st',
    Common.load_competition_data st = (Ok previous, st') /\
    extends is_read st st' /\
    (checkpoint_ok (file st) -> Forall has_url previous) /\
    previous = match file st with FileData data => data | _ => [] end.
Proof.
  unfold Common.load_competition_data. rewrite run_bind.
  destruct st as [f t tr]. unfold Eff.file_exists; cbn.
  destruct f as [| |data]; cbn.
  - eexists _, _. split; [reflexivity|]. split; [apply extends_refl|]. split; [constructor|done].
  - eexists _, _. split; [reflexivity|]. split; [|split; [constructor|done]].
    split; [reflexivity|]. exists [EvRead]. split; [reflexivity|]. by repeat constructor.
  - eexists _, _. split; [reflexivity|]. split; [|split; [done|done]].
    split; [reflexivity|]. exists [EvRead]. split; [reflexivity|]. by repeat constructor.
Qed.

(** ** The cycle *)

Lemma gather_run (load : M (list pydict)) (kaggle dacon : M (list pydict))
    (join : list pydict -> list pydict -> list pydict) st :
  load = Common.load_competition_data ->
  respects (extends is_fetch) (Forall has_url) kaggle -> total kaggle ->
  respects (extends is_fetch) (Forall has_url) dacon -> total dacon ->
  (forall k d, join k d = k ++ d) ->
  exists current st3 reads fetches,
    (previous ← load; k ← kaggle; d ← dacon; mret (previous, join k d)) st
      = (Ok (stored (file st), current), st3) /\
    file st3 = file st /\
    trace st3 = trace st ++ reads ++ fetches /\
    Forall is_read reads /\ Forall is_fetch fetches /\
    Forall has_url current.
Proof.
  intros -> Hk Tk Hd Td Hjoin.
  destruct (load_spec st) as (previous & st1 & Hload & [Hf1 (reads & Ht1 & Hr)] & _ & ->).
  rewrite run_bind, Hload.
  destruct (Hk st1) as [[Hf2 (ev2 & Ht2 & He2)] Hq2]. destruct (Tk st1) as [k Hkv].
  rewrite run_bind. destruct (kaggle st1) as [rk st2]. cbn in *. subst rk.
  destruct (Hd st2) as [[Hf3 (ev3 & Ht3 & He3)] Hq3]. destruct (Td st2) as [d Hdv].
  rewrite run_bind. destruct (dacon st2) as [rd st3]. cbn in *. subst rd.
  exists (join k d), st3, reads, (ev2 ++ ev3). rewrite run_ret.
  split; [reflexivity|]. split; [congruence|].
  split; [by rewrite Ht3, Ht2, Ht1, <- !app_assoc|].
  split; [exact Hr|]. split; [by apply Forall_app|].
  rewrite Hjoin. apply Forall_app. split; [apply Hq2|apply Hq3]; reflexivity.
Qed.

Lemma main_gather_run L W st :
  exists current st3 reads fetches,
    main_gather L W st = (Ok (stored (file st), current), st3) /\
    file st3 = file st /\
    trace st3 = trace st ++ reads ++ fetches /\
    Forall is_read reads /\ Forall is_fetch fetches /\
    Forall has_url current.
Proof.
  destruct (fetchers_total L W) as (Tk & Td & _ & _).
  unfold main_gather.
  apply (gather_run Main.load_competition_data (Main.get_kaggle_competitions L W)
           (Main.get_dacon_competitions L W) (fun k d => ([] ++ k) ++ d) st).
  - reflexivity.
  - eapply respects_weaken; [|apply main_get_kaggle].
    intros l Hl. eapply Forall_impl; [exact Hl|apply from_listing_has_url].
  - exact Tk.
  - apply main_get_dacon.
  - exact Td.
  - intros k d. reflexivity.
Qed.

Lemma slackbot_gather_run L W st :
  exists current st3 reads fetches,
    slackbot_gather L W st = (Ok (stored (file st), current), st3) /\
    file st3 = file st /\
    trace st3 = trace st ++ reads ++ fetches /\
    Forall is_read reads /\ Forall is_fetch fetches /\
    Forall has_url current.
Proof.
  destruct (fetchers_total L W) as (_ & _ & Tk & Td).
  unfold slackbot_gather.
  apply (gather_run Slackbot.load_competition_data (Slackbot.get_kaggle_competitions L W)
           (Slackbot.get_dacon_competitions L W) (fun k d => k ++ d) st).
  - reflexivity.
  - eapply respects_weaken; [|apply slackbot_get_kaggle].
    intros l Hl. eapply Forall_impl; [exact Hl|apply from_listing_has_url].
  - exact Tk.
  - apply slackbot_get_dacon.
  - exact Td.
  - intros k d. reflexivity.
Qed.

Lemma stored_ok f : checkpoint_ok f -> Forall has_url (stored f).
Proof. destruct f; cbn; auto. Qed.

Lemma save_run data st :
  Common.save_competition_data data st = (Ok tt, after_write st data).
Proof. reflexivity. Qed.

Lemma with_events_app st a b :
  with_events (with_events st a) b = with_events st (a ++ b).
Proof. unfold with_events. cbn. by rewrite app_assoc. Qed.

Lemma with_events_nil st : with_events st [] = st.
Proof. unfold with_events. rewrite app_nil_r. by destruct st. Qed.

(** *** Notifications of [main.py] *)

Lemma rendered_ok render c m : render c = Ok m -> rendered render [c] = [m].
Proof. unfold rendered. cbn. by intros ->. Qed.

Lemma rendered_raise render c e : render c = Raise e -> rendered render [c] = [].
Proof. unfold rendered. cbn. by intros ->. Qed.

Lemma main_send_run W c st :
  Main.send_slack_notification W c st
  = (Ok tt, with_events st (EvPost <$> rendered Main.notification [c])).
Proof.
  unfold Main.send_slack_notification. rewrite run_try, run_bind.
  unfold Eff.lift at 1.
  destruct (Main.notification c) as [m|e] eqn:Hn.
  - rewrite (rendered_ok _ _ _ Hn).
    unfold Eff.post. rewrite !run_bind. unfold Eff.emit, Eff.lift.
    destruct (chat_postMessage W m); reflexivity.
  - rewrite (rendered_raise _ _ _ Hn). rewrite run_ret. cbn. by rewrite with_events_nil.
Qed.

Lemma rendered_cons render c l :
  rendered render (c :: l) = rendered render [c] ++ rendered render l.
Proof. unfold rendered. cbn. by destruct (ok_value (render c)). Qed.

Lemma main_notify_run W new st :
  Eff.for_each new (fun comp _ => Main.send_slack_notification W comp) tt st
  = (Ok tt, with_events st (EvPost <$> rendered Main.notification new)).
Proof.
  revert st. induction new as [|c new IH]; intros st; cbn [Eff.for_each].
  - rewrite run_ret. by rewrite with_events_nil.
  - rewrite run_bind, main_send_run, IH, with_events_app, <- fmap_app.
    by rewrite <- rendered_cons.
Qed.

Lemma gather_parts (load kaggle dacon : M (list pydict))
    (join : list pydict -> list pydict -> list pydict) st previous current st3 :
  (p ← load; k ← kaggle; d ← dacon; mret (p, join k d)) st = (Ok (previous, current), st3) ->
  exists st1 k st2 d,
    load st = (Ok previous, st1) /\ kaggle st1 = (Ok k, st2) /\
    dacon st2 = (Ok d, st3) /\ current = join k d.
Proof.
  rewrite run_bind. destruct (load st) as [[p|e] st1] eqn:E1; [|discriminate].
  rewrite run_bind. destruct (kaggle st1) as [[k|e] st2] eqn:E2; [|discriminate].
  rewrite run_bind. destruct (dacon st2) as [[d|e] st3'] eqn:E3; [|discriminate].
  rewrite run_ret. intros H. injection H as Hp Hc Hs. subst.
  exists st1, k, st2, d. repeat split; first [assumption|reflexivity].
Qed.

(** One cycle of [main.py], after its first phases. *)
Lemma main_cycle_run L W st previous current st3 :
  main_gather L W st = (Ok (previous, current), st3) ->
  Main.check_new_competitions L W st =
    match current with
    | [] => (Ok tt, st3)
    | _ :: _ =>
        match Main.get_new_competitions current previous with
        | Ok new =>
            (Ok tt, after_write
                      (with_events st3 (EvPost <$> rendered Main.notification new))
                      current)
        | Raise _ => (Ok tt, st3)
        end
    end.
Proof.
  intros (st1 & k & st2 & d & E1 & E2 & E3 & ->)%gather_parts.
  unfold Main.check_new_competitions.
  rewrite run_try, run_bind, E1, run_bind, E2, run_bind, E3.
  destruct (([] ++ k) ++ d) as [|c cur] eqn:Hcur; [reflexivity|].
  rewrite run_bind. unfold Eff.lift at 1.
  destruct (Main.get_new_competitions (c :: cur) previous) as [new|e]; [|reflexivity].
  rewrite run_bind, main_notify_run, save_run. reflexivity.
Qed.

(** *** Notifications of [contest_noti_slackbot.py] *)

Lemma slackbot_send_run W c st :
  Slackbot.send_slack_notification W c st =
    match Slackbot.notification c with
    | Ok m =>
        match chat_postMessage W m with
        | Ok _ => (Ok true, with_events st [EvPost m])
        | Raise SlackApiError => (Ok false, with_events st [EvPost m])
        | Raise e => (Raise e, with_events st [EvPost m])
        end
    | Raise SlackApiError => (Ok false, st)
    | Raise e => (Raise e, st)
    end.
Proof.
  unfold Slackbot.send_slack_notification. rewrite run_try, run_bind.
  unfold Eff.lift at 1.
  destruct (Slackbot.notification c) as [m|e].
  - unfold Eff.post. rewrite !run_bind. unfold Eff.emit, Eff.lift.
    destruct (chat_postMessage W m) as [b|[]]; reflexivity.
  - destruct e; reflexivity.
Qed.

Lemma slackbot_send_no_run W st :
  exists r, Slackbot.send_no_competition_notification W st
            = (r, with_events st [EvPost Slackbot.no_competition_message]).
Proof.
  unfold Slackbot.send_no_competition_notification. rewrite run_try.
  unfold Eff.post. rewrite !run_bind. unfold Eff.emit, Eff.lift.
  destruct (chat_postMessage W _) as [b|[]]; eexists; reflexivity.
Qed.

Lemma slackbot_send_posts W c :
  respects (extends is_post) (fun _ => True) (Slackbot.send_slack_notification W c).
Proof.
  intros st. split; [|done]. rewrite slackbot_send_run.
  destruct (Slackbot.notification c) as [m|e].
  - assert (extends is_post st (with_events st [EvPost m])).
    { split; [reflexivity|]. exists [EvPost m]. split; [reflexivity|]. by repeat constructor. }
    destruct (chat_postMessage W m) as [b|[]]; exact H.
  - destruct e; apply extends_refl.
Qed.

Lemma slackbot_notify_posts W new :
  respects (extends is_post) (fun _ => True)
    (Eff.for_each new
       (fun comp _ => _ ← Slackbot.send_slack_notification W comp; mret tt) tt).
Proof.
  apply respects_for_each; [exact I|]. intros c [] _ _.
  eapply respects_bind; [apply slackbot_send_posts|]. intros. by apply respects_ret.
Qed.

Lemma slackbot_notify_run W new st :
  Forall (deliverable W) new ->
  Eff.for_each new
    (fun comp _ => _ ← Slackbot.send_slack_notification W comp; mret tt) tt st
  = (Ok tt, with_events st (EvPost <$> rendered Slackbot.notification new)) /\
  length (rendered Slackbot.notification new) = length new.
Proof.
  intros Hnew. revert st.
  induction Hnew as [|c new (m & Hm & Hsink) _ IH]; intros st; cbn [Eff.for_each].
  - rewrite run_ret, with_events_nil. by split.
  - rewrite rendered_cons, (rendered_ok _ _ _ Hm).
    rewrite !run_bind, slackbot_send_run, Hm.
    destruct (IH (with_events st [EvPost m])) as [Hrun Hlen].
    split; [|cbn; by rewrite Hlen].
    destruct (chat_postMessage W m) as [b|e] eqn:Hpost.
    + rewrite run_ret, Hrun, with_events_app. reflexivity.
    + rewrite (Hsink e eq_refl). rewrite run_ret, Hrun, with_events_app. reflexivity.
Qed.

(** One cycle of [contest_noti_slackbot.py], after its first phases. *)
Lemma slackbot_cycle_run L W st previous current st3 new :
  slackbot_gather L W st = (Ok (previous, current), st3) ->
  Slackbot.find_new_competitions current previous = Ok new ->
  Slackbot.check_new_competitions L W st =
    match new with
    | _ :: _ =>
        Eff.for_each new
          (fun comp _ => _ ← Slackbot.send_slack_notification W comp; mret tt) tt
          (after_write st3 current)
    | [] =>
        (_ ← Slackbot.send_no_competition_notification W; mret tt)
          (after_write st3 current)
    end.
Proof.
  intros (st1 & k & st2 & d & E1 & E2 & E3 & ->)%gather_parts Hnew.
  unfold Slackbot.check_new_competitions.
  rewrite run_bind, E1, run_bind, E2, run_bind, E3, run_bind.
  unfold Eff.lift at 1. rewrite Hnew, run_bind, save_run.
  destruct new; reflexivity.
Qed.

(** A cycle of [contest_noti_slackbot.py] whose diff raises stops there. *)
Lemma slackbot_cycle_raise L W st previous current st3 e :
  slackbot_gather L W st = (Ok (previous, current), st3) ->
  Slackbot.find_new_competitions current previous = Raise e ->
  Slackbot.check_new_competitions L W st = (Raise e, st3).
Proof.
  intros (st1 & k & st2 & d & E1 & E2 & E3 & ->)%gather_parts Hnew.
  unfold Slackbot.check_new_competitions.
  rewrite run_bind, E1, run_bind, E2, run_bind, E3, run_bind.
  unfold Eff.lift at 1. by rewrite Hnew.
Qed.

(** ** Strings *)

Lemma startswith_spec (s p : str) :
  PyStr.startswith s p = true <-> exists rest, s = p ++ rest.
Proof.
  revert s. induction p as [|c p IH]; intros s; cbn.
  - split; [intros _; by exists s|intros _; by destruct s].
  - destruct s as [|d s].
    + split; [discriminate|]. intros (rest & H). discriminate H.
    + cbn. rewrite andb_true_iff, Z.eqb_eq, IH. split.
      * intros [-> (rest & ->)]. by exists rest.
      * intros (rest & H). injection H as -> ->. split; [reflexivity|by exists rest].
Qed.

Lemma startswith_app (p rest : str) : PyStr.startswith (p ++ rest) p = true.
Proof. apply startswith_spec. by exists rest. Qed.

Lemma contains_spec (sub s : str) :
  PyStr.contains sub s = true <-> exists a b, s = a ++ sub ++ b.
Proof.
  induction s as [|c s IH]; cbn [PyStr.contains]; rewrite orb_true_iff, startswith_spec.
  - split.
    + intros [(rest & H)|]; [|done]. exists [], rest. exact H.
    + intros (a & b & H). left. destruct a; [by exists b|done].
  - rewrite IH. split.
    + intros [(rest & ->)|(a & b & ->)]; [by exists [], rest|by exists (c :: a), b].
    + intros ([|d a] & b & H); [left; by exists b|].
      injection H as -> ->. right. by exists a, b.
Qed.

Lemma find_string_none (p : str -> bool) (nodes : list str) :
  Common.find_string p nodes = None <-> Forall (fun s => p s = false) nodes.
Proof.
  induction nodes as [|s nodes IH]; cbn.
  - split; [constructor|done].
  - destruct (p s) eqn:Hs.
    + split; [done|]. intros H. apply Forall_cons in H as [H _]. congruence.
    + rewrite IH. split; [by constructor|]. by intros [_ H]%Forall_cons.
Qed.

Lemma find_string_some (p : str -> bool) (nodes : list str) s :
  Common.find_string p nodes = Some s <->
  exists before after,
    nodes = before ++ s :: after /\ p s = true /\ Forall (fun t => p t = false) before.
Proof.
  revert s. induction nodes as [|t nodes IH]; intros s; cbn.
  - split; [done|]. intros ([|??] & ? & ? & _); done.
  - destruct (p t) eqn:Ht.
    + split.
      * intros [= ->]. exists [], nodes. by repeat split.
      * intros ([|u before] & after & Heq & Hs & Hb).
        -- by injection Heq as ->.
        -- injection Heq as -> _. apply Forall_cons in Hb as [Hb _]. congruence.
    + rewrite IH. split.
      * intros (before & after & -> & Hs & Hb). exists (t :: before), after.
        repeat split; [done|by constructor].
      * intros ([|u before] & after & Heq & Hs & Hb).
        -- injection Heq as -> _. congruence.
        -- injection Heq as -> ->. apply Forall_cons in Hb as [_ Hb]. eauto.
Qed.

(** The node that carries the period label, in words. *)
Lemma has_period_label_spec (s : str) :
  Common.has_period_label s = true <-> exists a b, s = a ++ Common.PERIOD_LABEL ++ b.
Proof.
  unfold Common.has_period_label. rewrite andb_true_iff, contains_spec. split.
  - by intros [_ H].
  - intros (a & b & ->). split; [|eauto]. by destruct a.
Qed.

Lemma lstrip_by_head (p : Z -> bool) (s : str) c t :
  PyStr.lstrip_by p s = c :: t -> p c = false.
Proof.
  induction s as [|d s IH]; cbn; [done|].
  destruct (p d) eqn:Hd; [exact IH|]. by intros [= <- _].
Qed.

Lemma lstrip_by_suffix (p : Z -> bool) (s : str) :
  exists ws, s = ws ++ PyStr.lstrip_by p s /\ Forall (fun c => p c = true) ws.
Proof.
  induction s as [|d s (ws & Hs & Hws)]; cbn.
  - by exists [].
  - destruct (p d) eqn:Hd.
    + exists (d :: ws). split; [by rewrite Hs at 1|by constructor].
    + by exists [].
Qed.

Lemma lstrip_by_id (p : Z -> bool) (s : str) :
  (forall c t, s = c :: t -> p c = false) -> PyStr.lstrip_by p s = s.
Proof. destruct s as [|c t]; cbn; [done|]. intros H. by rewrite (H c t eq_refl). Qed.

Lemma lstrip_by_app (p : Z -> bool) (ws s : str) :
  Forall (fun c => p c = true) ws -> PyStr.lstrip_by p (ws ++ s) = PyStr.lstrip_by p s.
Proof. induction 1 as [|c ws Hc _ IH]; cbn; [done|]. by rewrite Hc. Qed.

(** The stripped string is framed by the whitespace removed, and neither
    starts nor ends with whitespace. *)
Lemma strip_spec (s : str) :
  exists ws1 ws2,
    s = ws1 ++ PyStr.strip s ++ ws2 /\
    Forall (fun c => PyStr.isspace c = true) ws1 /\
    Forall (fun c => PyStr.isspace c = true) ws2 /\
    (forall c t, PyStr.strip s = c :: t -> PyStr.isspace c = false) /\
    (forall c t, PyStr.strip s = t ++ [c] -> PyStr.isspace c = false).
Proof.
  unfold PyStr.strip, PyStr.rstrip_by.
  destruct (lstrip_by_suffix PyStr.isspace s) as (ws1 & Hs & Hws1).
  set (m := PyStr.lstrip_by PyStr.isspace s) in *.
  destruct (lstrip_by_suffix PyStr.isspace (rev m)) as (ws2 & Hm & Hws2).
  set (r := PyStr.lstrip_by PyStr.isspace (rev m)) in *.
  assert (Hm' : m = rev r ++ rev ws2).
  { rewrite <- rev_app_distr, <- Hm. by rewrite rev_involutive. }
  exists ws1, (rev ws2). split; [by rewrite <- Hm'|]. split; [exact Hws1|].
  split; [by apply Forall_rev|]. split.
  - intros c t Hr. apply (lstrip_by_head PyStr.isspace s c (t ++ rev ws2)).
    fold m. rewrite Hm', Hr. reflexivity.
  - intros c t Hr. assert (Hr' : r = c :: rev t).
    { rewrite <- (rev_involutive r), Hr, rev_app_distr. reflexivity. }
    eapply lstrip_by_head. exact Hr'.
Qed.

Lemma lstrip_by_all (p : Z -> bool) (ws : str) :
  Forall (fun c => p c = true) ws -> PyStr.lstrip_by p ws = [].
Proof. induction 1 as [|c ws Hc _ IH]; cbn; [done|]. by rewrite Hc. Qed.

Lemma strip_framed (ws1 ws2 t : str) :
  Forall (fun c => PyStr.isspace c = true) ws1 ->
  Forall (fun c => PyStr.isspace c = true) ws2 ->
  (forall c u, t = c :: u -> PyStr.isspace c = false) ->
  (forall c u, t = u ++ [c] -> PyStr.isspace c = false) ->
  PyStr.strip (ws1 ++ t ++ ws2) = t.
Proof.
  intros H1 H2 Hhead Hlast. unfold PyStr.strip, PyStr.rstrip_by.
  rewrite lstrip_by_app by exact H1.
  destruct t as [|c u].
  - cbn [app]. rewrite (lstrip_by_all _ ws2 H2). reflexivity.
  - rewrite (lstrip_by_id PyStr.isspace ((c :: u) ++ ws2)).
    2:{ intros c' t' H. cbn in H. injection H as <- _. exact (Hhead c u eq_refl). }
    rewrite rev_app_distr, lstrip_by_app by (by apply Forall_rev).
    rewrite (lstrip_by_id PyStr.isspace (rev (c :: u))); [by rewrite rev_involutive|].
    intros c' t' Hrev. apply (Hlast c' (rev t')).
    rewrite <- (rev_involutive (c :: u)), Hrev. reflexivity.
Qed.

(** ** Traces *)

Lemma writes_app a b : writes (a ++ b) = writes a ++ writes b.
Proof. unfold writes. apply omap_app. Qed.

Lemma posts_app a b : posts (a ++ b) = posts a ++ posts b.
Proof. unfold posts. apply omap_app. Qed.

Lemma posts_of_posts ms : posts (EvPost <$> ms) = ms.
Proof.
  induction ms as [|m ms IH]; [done|].
  change (m :: posts (EvPost <$> ms) = m :: ms). by rewrite IH.
Qed.


Lemma quiet_reads evs : Forall is_read evs -> writes evs = [] /\ posts evs = [].
Proof. induction 1 as [|[] evs He _ IH]; cbn in *; done. Qed.

Lemma quiet_fetches evs : Forall is_fetch evs -> writes evs = [] /\ posts evs = [].
Proof. induction 1 as [|[] evs He _ IH]; cbn in *; done. Qed.

Lemma posts_are_posts ms : Forall is_post (EvPost <$> ms).
Proof. induction ms; constructor; [exact I|done]. Qed.

(** ** Loops that raise *)

Lemma for_each_raises {A B} (l : list A) (body : A -> B -> M B) x :
  x ∈ l ->
  (forall acc st, exists e st', body x acc st = (Raise e, st')) ->
  forall acc st, exists e st', Eff.for_each l body acc st = (Raise e, st').
Proof.
  intros Hin Hx. induction l as [|y l IH]; intros acc st; [by apply elem_of_nil in Hin|].
  cbn [Eff.for_each]. rewrite run_bind.
  destruct (body y acc st) as [[acc'|e] st'] eqn:Hy; [|eauto].
  apply elem_of_cons in Hin as [->|Hin]; [|by apply IH].
  destruct (Hx acc st) as (e & st'' & He). congruence.
Qed.

Lemma for_each_lift_state {A B} (l : list A) (step : A -> B -> result B) acc st :
  (Eff.for_each l (fun x a => Eff.lift (step x a)) acc st).2 = st.
Proof.
  revert acc. induction l as [|y l IH]; intros acc; cbn [Eff.for_each]; [done|].
  rewrite run_bind. unfold Eff.lift at 1. destruct (step y acc); [apply IH|done].
Qed.

(** ** Retention *)

Lemma clean_step_examinable L now c acc :
  examinable L c ->
  Main.clean_step L now c acc = Ok (if retained L now c then acc ++ [c] else acc).
Proof.
  intros [[p Hp] Hd]. unfold Main.clean_step, retained.
  rewrite (getitem_some _ _ _ Hp). cbn.
  destruct (decide (is_kaggle c)) as [Hk|Hk].
  - unfold is_kaggle in Hk. assert (p = VStr (u8 "Kaggle")) as -> by congruence.
    rewrite bool_decide_eq_true_2 by done.
    destruct (Hd Hk) as [d Hdl]. rewrite Hdl. unfold deadline_of in Hdl.
    destruct (c !! "deadline") as [[|s]|] eqn:Hs; try done.
    rewrite (getitem_some _ _ _ Hs). cbn. rewrite Hdl. cbn.
    by destruct (Datetime.gt d now).
  - rewrite bool_decide_eq_false_2; [done|]. intros ->. by apply Hk.
Qed.

Lemma clean_step_bad_deadline L now c acc :
  is_kaggle c -> deadline_of L c = None ->
  exists e, Main.clean_step L now c acc = Raise e.
Proof.
  intros Hk Hd. unfold Main.clean_step. rewrite (getitem_some _ _ _ Hk). cbn.
  rewrite bool_decide_eq_true_2 by done. unfold deadline_of in Hd.
  destruct (c !! "deadline") as [[|s]|] eqn:Hs.
  - rewrite (getitem_some _ _ _ Hs). cbn. eauto.
  - rewrite (getitem_some _ _ _ Hs). cbn. rewrite Hd. eauto.
  - rewrite (getitem_none _ _ Hs). cbn. eauto.
Qed.

Lemma clean_step_grows L now x acc acc' :
  Main.clean_step L now x acc = Ok acc' ->
  (forall c, c ∈ acc -> c ∈ acc') /\ (¬ is_kaggle x -> x ∈ acc').
Proof.
  unfold Main.clean_step.
  destruct (x !! "platform") as [p|] eqn:Hp;
    [rewrite (getitem_some _ _ _ Hp)|by rewrite (getitem_none _ _ Hp)].
  cbn. destruct (decide (p = VStr (u8 "Kaggle"))) as [->|Hne].
  - rewrite bool_decide_eq_true_2 by done.
    destruct (Py.getitem x "deadline") as [v|]; [|done]. cbn.
    destruct (Main.parse_deadline L v) as [d|]; [|done]. cbn.
    destruct (Datetime.gt d now); intros [= <-].
    + split; [intros c Hc; apply elem_of_app; by left|]. intros Hnk. by destruct Hnk.
    + split; [done|]. intros Hnk. by destruct Hnk.
  - rewrite bool_decide_eq_false_2 by done. intros [= <-].
    split; intros; apply elem_of_app; [by left|right; by left].
Qed.

Lemma clean_loop_grows L now l acc out st1 st2 :
  Eff.for_each l (fun comp cleaned => Eff.lift (Main.clean_step L now comp cleaned)) acc st1
    = (Ok out, st2) ->
  forall c, c ∈ acc \/ (c ∈ l /\ ¬ is_kaggle c) -> c ∈ out.
Proof.
  revert acc. induction l as [|x l IH]; intros acc; cbn [Eff.for_each].
  - rewrite run_ret. intros [= <- _] c [H|[H _]]; [done|by apply elem_of_nil in H].
  - rewrite run_bind. unfold Eff.lift at 1.
    destruct (Main.clean_step L now x acc) as [acc'|e] eqn:Hstep; [|done].
    destruct (clean_step_grows _ _ _ _ _ Hstep) as [Hmono Hx].
    intros Hrun c Hc. apply (IH _ Hrun).
    destruct Hc as [Hc|[Hc Hnk]]; [left; by apply Hmono|].
    apply elem_of_cons in Hc as [->|Hc]; [left; by apply Hx|right; by split].
Qed.

Lemma clean_loop_examinable L now comps acc st :
  Forall (examinable L) comps ->
  Eff.for_each comps (fun comp cleaned => Eff.lift (Main.clean_step L now comp cleaned)) acc st
  = (Ok (acc ++ filter (fun c => retained L now c) comps), st).
Proof.
  intros H. revert acc. induction H as [|c comps Hc _ IH]; intros acc; cbn [Eff.for_each].
  - by rewrite app_nil_r.
  - rewrite run_bind. unfold Eff.lift at 1. rewrite (clean_step_examinable _ _ _ _ Hc).
    rewrite IH, filter_cons. destruct (retained L now c); cbn.
    + by rewrite <- app_assoc.
    + done.
Qed.

Lemma clean_loop_bad_deadline L now comps c acc st :
  c ∈ comps -> is_kaggle c -> deadline_of L c = None ->
  exists e,
    Eff.for_each comps (fun comp cleaned => Eff.lift (Main.clean_step L now comp cleaned)) acc st
    = (Raise e, st).
Proof.
  intros Hin Hk Hd.
  destruct (for_each_raises comps
              (fun comp cleaned => Eff.lift (Main.clean_step L now comp cleaned)) c Hin)
    with (acc := acc) (st := st) as (e & st' & Hrun).
  { intros acc' st0. destruct (clean_step_bad_deadline L now c acc' Hk Hd) as [e He].
    exists e, st0. unfold Eff.lift. by rewrite He. }
  exists e. pose proof (for_each_lift_state comps (Main.clean_step L now) acc st) as Hst.
  rewrite Hrun in Hst. cbn in Hst. by subst.
Qed.

Lemma clean_run L W st c comps :
  file st = FileData (c :: comps) ->
  Main.clean_competition_data L W st =
    match Eff.for_each (c :: comps)
            (fun comp cleaned =>
               Eff.lift (Main.clean_step L (clock W (ticks st)) comp cleaned)) []
            (cleaning st) with
    | (Ok cleaned, st') => (Ok tt, after_write st' cleaned)
    | (Raise _, st') => (Ok tt, st')
    end.
Proof.
  intros Hf. unfold Main.clean_competition_data, Main.load_competition_data,
    Common.load_competition_data.
  rewrite run_try, !run_bind. unfold Eff.file_exists. rewrite Hf.
  rewrite run_try. unfold Eff.read_file. rewrite run_bind. unfold Eff.emit, Eff.parse_file.
  cbn [file]. rewrite Hf. rewrite run_bind. unfold Eff.now at 1. cbn [ticks file trace].
  rewrite run_bind. fold (cleaning st). rewrite <- Hf.
  replace {| file := file st; ticks := S (ticks st); trace := trace st ++ [EvRead] |}
    with (cleaning st) by reflexivity.
  destruct (Eff.for_each _ _ _ _) as [[cleaned|e] st']; reflexivity.
Qed.

Lemma clean_run_empty L W st :
  stored (file st) = [] ->
  file (Main.clean_competition_data L W st).2 = file st /\
  (Main.clean_competition_data L W st).1 = Ok tt /\
  writes (trace (Main.clean_competition_data L W st).2) = writes (trace st).
Proof.
  intros Hs.
  destruct (load_spec st) as (prev & st1 & Hload & [Hf (reads & Ht & Hr)] & _ & Hprev).
  fold (stored (file st)) in Hprev. rewrite Hs in Hprev. subst prev.
  unfold Main.clean_competition_data, Main.load_competition_data.
  rewrite run_try, run_bind, Hload, run_ret. cbn [fst snd].
  split; [exact Hf|]. split; [reflexivity|].
  rewrite Ht, writes_app. destruct (quiet_reads reads Hr) as [-> _]. by rewrite app_nil_r.
Qed.

(** * The claims *)

(** ** The diff *)

(** C1. For every pair of sequences [current], [previous] of competition
    records (records that carry an identity, their [url]), the two diff
    functions, [get_new_competitions] of main.py and [find_new_competitions]
    of contest_noti_slackbot.py, return the same list, which is exactly the
    records of [current] whose identity is not in the set of identities of
    [previous]: every record of the result has an identity absent from that
    set, every record of [current] whose identity is in the set is absent
    from the result, and the result is the subsequence of [current] in the
    order of [current]. *)
Theorem diff_returns_exactly_the_unknown (current previous : list pydict) :
  Forall has_url current -> Forall has_url previous ->
  exists new,
    Main.get_new_competitions current previous = Ok new /\
    Slackbot.find_new_competitions current previous = Ok new /\
    new = filter (fun c => ¬ known previous c) current /\
    (forall c, c ∈ new -> c ∈ current /\ identity c ∉ identity <$> previous) /\
    (forall c, c ∈ current -> identity c ∈ identity <$> previous -> c ∉ new) /\
    (forall c, c ∈ current -> identity c ∉ identity <$> previous -> c ∈ new) /\
    new `sublist_of` current.
Proof.
  intros Hc Hp. destruct (diff_is_filter current previous Hc Hp) as [Hm Hs].
  exists (filter (fun c => ¬ known previous c) current).
  split; [exact Hm|]. split; [exact Hs|]. split; [reflexivity|].
  split; [|split; [|split]].
  - intros c [Hk Hin]%list_elem_of_filter. by split.
  - intros c _ Hk [Hn _]%list_elem_of_filter. by apply Hn.
  - intros c Hin Hk. apply list_elem_of_filter. by split.
  - apply sublist_filter.
Qed.

Lemma diff_returns_exactly_the_unknown_witness :
  Forall has_url [Sample.rec_a; Sample.rec_b] /\
  Forall has_url [Sample.rec_a] /\
  exists new,
    Main.get_new_competitions [Sample.rec_a; Sample.rec_b] [Sample.rec_a] = Ok new /\
    Slackbot.find_new_competitions [Sample.rec_a; Sample.rec_b] [Sample.rec_a] = Ok new /\
    new = filter (fun c => ¬ known [Sample.rec_a] c) [Sample.rec_a; Sample.rec_b] /\
    (forall c, c ∈ new ->
       c ∈ [Sample.rec_a; Sample.rec_b] /\ identity c ∉ identity <$> [Sample.rec_a]) /\
    (forall c, c ∈ [Sample.rec_a; Sample.rec_b] ->
       identity c ∈ identity <$> [Sample.rec_a] -> c ∉ new) /\
    (forall c, c ∈ [Sample.rec_a; Sample.rec_b] ->
       identity c ∉ identity <$> [Sample.rec_a] -> c ∈ new) /\
    new `sublist_of` [Sample.rec_a; Sample.rec_b].
Proof.
  assert (Ha : has_url Sample.rec_a) by (by eexists).
  assert (Hb : has_url Sample.rec_b) by (by eexists).
  split; [by repeat constructor|]. split; [by repeat constructor|].
  apply (diff_returns_exactly_the_unknown [Sample.rec_a; Sample.rec_b] [Sample.rec_a]);
    by repeat constructor.
Defined.

(** The scenario of the specification: [a] is known, [a] and [b] are fetched. *)
Example diff_scenario :
  Main.get_new_competitions [Sample.rec_a; Sample.rec_b] [Sample.rec_a] = Ok [Sample.rec_b] /\
  Slackbot.find_new_competitions [Sample.rec_a; Sample.rec_b] [Sample.rec_a] = Ok [Sample.rec_b] /\
  Main.get_new_competitions [Sample.rec_a; Sample.rec_b] [] = Ok [Sample.rec_a; Sample.rec_b] /\
  Main.get_new_competitions [Sample.rec_a; Sample.rec_b] [Sample.rec_a; Sample.rec_b] = Ok [].
Proof. repeat split; vm_compute; reflexivity. Qed.

(** A record without identity makes the diff raise. *)
Example diff_raises_without_identity :
  Main.get_new_competitions [Sample.rec_a] [∅] = Raise KeyError /\
  Slackbot.find_new_competitions [Sample.rec_a] [∅] = Raise KeyError.
Proof. split; reflexivity. Qed.

(** ** Retention *)






(** What the retention pass leaves in the checkpoint. *)
Lemma clean_outcome L W st comps :
  file st = FileData comps ->
  (Main.clean_competition_data L W st).1 = Ok tt /\
  (Forall (examinable L) comps ->
     file (Main.clean_competition_data L W st).2
       = FileData (filter (fun c => retained L (clock W (ticks st)) c) comps)) /\
  (forall c, c ∈ comps -> is_kaggle c -> deadline_of L c = None ->
     file (Main.clean_competition_data L W st).2 = FileData comps /\
     writes (trace (Main.clean_competition_data L W st).2) = writes (trace st)) /\
  (exists kept,
     file (Main.clean_competition_data L W st).2 = FileData kept /\
     forall c, c ∈ comps -> ¬ is_kaggle c -> c ∈ kept).
Proof.
  intros Hf. destruct comps as [|c0 comps].
  { destruct (clean_run_empty L W st) as (Hfile & Hres & Hw); [by rewrite Hf|].
    split; [exact Hres|]. split; [intros _; by rewrite Hfile, Hf|].
    split; [intros c Hc; by apply elem_of_nil in Hc|].
    exists []. split; [by rewrite Hfile, Hf|]. intros c Hc; by apply elem_of_nil in Hc. }
  rewrite (clean_run L W st c0 comps Hf).
  set (now := clock W (ticks st)). set (body := fun comp cleaned => _).
  pose proof (for_each_lift_state (c0 :: comps) (Main.clean_step L now) [] (cleaning st)) as Hst.
  fold body in Hst.
  split; [by destruct (Eff.for_each _ _ _ _) as [[?|?] ?]|].
  split; [|split].
  - intros Hex. unfold body. by rewrite (clean_loop_examinable L now _ [] _ Hex).
  - intros c Hc Hk Hd.
    destruct (clean_loop_bad_deadline L now _ c [] (cleaning st) Hc Hk Hd) as [e He].
    unfold body. rewrite He. cbn. split; [exact Hf|].
    rewrite writes_app. cbn. by rewrite app_nil_r.
  - destruct (Eff.for_each _ _ _ _) as [[cleaned|e] st'] eqn:Hrun; cbn in Hst; subst st'.
    + exists cleaned. split; [reflexivity|].
      intros c Hc Hnk. eapply (clean_loop_grows L now); [exact Hrun|]. right. by split.
    + exists (c0 :: comps). split; [exact Hf|]. done.
Qed.



(** C10. If the stored checkpoint holds a Kaggle record whose [deadline] is
    missing, is not a string, or does not parse in the format of the bot,
    the retention pass ([clean_competition_data] of main.py) raises nothing
    and leaves the checkpoint as it was: the loop raises at that record (or
    before), the handler catches it, and the save that follows the loop is
    never reached, so no partly pruned list is written. *)
Theorem retention_aborts_on_unreadable_deadline L W st comps c :
  file st = FileData comps ->
  c ∈ comps ->
  is_kaggle c ->
  (c !! "deadline" = None \/ c !! "deadline" = Some VNone \/
   exists s, c !! "deadline" = Some (VStr s) /\ strptime L s = None) ->
  (Main.clean_competition_data L W st).1 = Ok tt /\
  file (Main.clean_competition_data L W st).2 = FileData comps /\
  writes (trace (Main.clean_competition_data L W st).2) = writes (trace st).
Proof.
  intros Hf Hc Hk Hbad.
  assert (Hd : deadline_of L c = None).
  { unfold deadline_of. destruct Hbad as [->|[->|(s & -> & Hs)]]; done. }
  destruct (clean_outcome L W st comps Hf) as (Hres & _ & Hkeep & _).
  destruct (Hkeep c Hc Hk Hd) as [Hfile Hw]. by repeat split.
Qed.

Lemma retention_aborts_on_unreadable_deadline_witness :
  let comps := [Sample.one_second_ago; Sample.bad_deadline; Sample.dacon_record] in
  let st := Sample.start (FileData comps) in
  file st = FileData comps /\
  Sample.bad_deadline ∈ comps /\
  is_kaggle Sample.bad_deadline /\
  (exists s, Sample.bad_deadline !! "deadline" = Some (VStr s) /\
             strptime Sample.lib s = None) /\
  (Main.clean_competition_data Sample.lib Sample.online st).1 = Ok tt /\
  file (Main.clean_competition_data Sample.lib Sample.online st).2 = FileData comps /\
  writes (trace (Main.clean_competition_data Sample.lib Sample.online st).2)
    = writes (trace st).
Proof.
  intros comps st.
  assert (Hin : Sample.bad_deadline ∈ comps) by (right; left).
  assert (Hk : is_kaggle Sample.bad_deadline) by reflexivity.
  assert (Hs : exists s, Sample.bad_deadline !! "deadline" = Some (VStr s) /\
                         strptime Sample.lib s = None).
  { exists (u8 "tomorrow"). split; reflexivity. }
  split; [reflexivity|]. split; [exact Hin|]. split; [exact Hk|]. split; [exact Hs|].
  apply (retention_aborts_on_unreadable_deadline Sample.lib Sample.online st comps
           Sample.bad_deadline eq_refl Hin Hk).
  right. right. exact Hs.
Defined.

(** The three kinds of unreadable deadline, and the expired record that
    stays because of them. *)
Example retention_abort_cases :
  let run bad :=
    file (Main.clean_competition_data Sample.lib Sample.online
            (Sample.start (FileData [Sample.one_second_ago; bad]))).2 in
  run Sample.no_deadline = FileData [Sample.one_second_ago; Sample.no_deadline] /\
  run (Sample.kaggle_record "null" VNone)
    = FileData [Sample.one_second_ago; Sample.kaggle_record "null" VNone] /\
  run Sample.bad_deadline = FileData [Sample.one_second_ago; Sample.bad_deadline] /\
  run Sample.one_second_ahead = FileData [Sample.one_second_ahead].
Proof. repeat split; vm_compute; reflexivity. Qed.

(** ** The period extractor *)

Lemma main_period_run L W url st :
  Main.get_competition_period L W url st =
    (Ok match requests_get W url with
        | Ok soup =>
            match Common.find_string Common.has_period_label (strings soup) with
            | Some period_text => VStr (Main.clean_period L period_text)
            | None => VStr Common.PERIOD_NOT_FOUND
            end
        | Raise _ => VNone
        end,
     with_events st [EvGet url]).
Proof.
  unfold Main.get_competition_period, Eff.get_page.
  rewrite run_try, !run_bind. unfold Eff.emit, Eff.lift. cbn [fst snd].
  destruct (requests_get W url) as [soup|e]; [|reflexivity].
  by destruct (Common.find_string _ _).
Qed.

Lemma slackbot_period_run W url st :
  Slackbot.get_competition_period W url st =
    (Ok match requests_get W url with
        | Ok soup =>
            match Common.find_string Common.has_period_label (strings soup) with
            | Some period_text =>
                VStr (PyStr.strip (PyStr.replace period_text Common.PERIOD_PREFIX []))
            | None => VStr Common.PERIOD_NOT_FOUND
            end
        | Raise _ => VNone
        end,
     with_events st [EvGet url]).
Proof.
  unfold Slackbot.get_competition_period, Eff.get_page.
  rewrite run_try, !run_bind. unfold Eff.emit, Eff.lift. cbn [fst snd].
  destruct (requests_get W url) as [soup|e]; [|reflexivity].
  by destruct (Common.find_string _ _).
Qed.

Lemma no_label_no_node (nodes : list str) :
  (forall text, text ∈ nodes -> ¬ exists a b, text = a ++ Common.PERIOD_LABEL ++ b) ->
  Common.find_string Common.has_period_label nodes = None.
Proof.
  intros H. apply find_string_none, Forall_forall. intros text Hin.
  destruct (Common.has_period_label text) eqn:Hl; [|done].
  destruct (H text Hin). by apply has_period_label_spec.
Qed.

(** C6. The period extractor ([get_competition_period], in both programs)
    returns the fixed string "기간 정보를 찾을 수 없습니다." when the page was
    fetched and none of its text nodes contains the label "대회 기간 :", and
    returns [None] when the fetch raises; it returns [None] in no other case.
    The fixed string is not empty and is not [None], so the two answers are
    distinct for every input. *)
Theorem period_sentinel_is_not_absence L W url st :
  (forall soup,
     requests_get W url = Ok soup ->
     (forall text, text ∈ strings soup ->
        ¬ exists a b, text = a ++ Common.PERIOD_LABEL ++ b) ->
     (Main.get_competition_period L W url st).1 = Ok (VStr Common.PERIOD_NOT_FOUND) /\
     (Slackbot.get_competition_period W url st).1 = Ok (VStr Common.PERIOD_NOT_FOUND)) /\
  (forall e,
     requests_get W url = Raise e ->
     (Main.get_competition_period L W url st).1 = Ok VNone /\
     (Slackbot.get_competition_period W url st).1 = Ok VNone) /\
  ((Main.get_competition_period L W url st).1 = Ok VNone ->
     exists e, requests_get W url = Raise e) /\
  ((Slackbot.get_competition_period W url st).1 = Ok VNone ->
     exists e, requests_get W url = Raise e) /\
  VStr Common.PERIOD_NOT_FOUND <> VNone /\
  Common.PERIOD_NOT_FOUND <> [] /\
  Common.PERIOD_NOT_FOUND = u8 "기간 정보를 찾을 수 없습니다.".
Proof.
  rewrite main_period_run, slackbot_period_run. cbn [fst].
  split; [|split; [|split; [|split]]].
  - intros soup -> Hnone. by rewrite (no_label_no_node _ Hnone).
  - by intros e ->.
  - destruct (requests_get W url) as [soup|e]; [|eauto].
    by destruct (Common.find_string _ _).
  - destruct (requests_get W url) as [soup|e]; [|eauto].
    by destruct (Common.find_string _ _).
  - repeat split; done.
Qed.

Lemma period_sentinel_is_not_absence_witness :
  let url := u8 "https://dacon.io/competitions/a/schedule" in
  let nowhere := u8 "https://dacon.io/competitions/z/schedule" in
  let W := {| authenticate := Ok tt; competitions_list := Ok [];
              requests_get := fun u =>
                if bool_decide (u = url) then Ok (Sample.text_page [u8 "일정"; u8 "미정"])
                else Raise RequestException;
              chat_postMessage := fun _ => Ok true;
              clock := fun _ => Sample.at_time 2024 1 15 12 0 0 |} in
  (requests_get W url = Ok (Sample.text_page [u8 "일정"; u8 "미정"]) /\
   (forall text, text ∈ [u8 "일정"; u8 "미정"] ->
      ¬ exists a b, text = a ++ Common.PERIOD_LABEL ++ b) /\
   (Main.get_competition_period Sample.lib W url (Sample.start FileAbsent)).1
     = Ok (VStr Common.PERIOD_NOT_FOUND) /\
   (Slackbot.get_competition_period W url (Sample.start FileAbsent)).1
     = Ok (VStr Common.PERIOD_NOT_FOUND)) /\
  (requests_get W nowhere = Raise RequestException /\
   (Main.get_competition_period Sample.lib W nowhere (Sample.start FileAbsent)).1
     = Ok VNone /\
   (Slackbot.get_competition_period W nowhere (Sample.start FileAbsent)).1 = Ok VNone).
Proof.
  intros url nowhere W.
  assert (Hnone : forall text, text ∈ [u8 "일정"; u8 "미정"] ->
                    ¬ exists a b, text = a ++ Common.PERIOD_LABEL ++ b).
  { intros text Hin Hlabel. apply has_period_label_spec in Hlabel.
    apply elem_of_cons in Hin as [->|Hin]; [by vm_compute in Hlabel|].
    apply elem_of_cons in Hin as [->|Hin]; [by vm_compute in Hlabel|].
    by apply elem_of_nil in Hin. }
  split.
  - split; [reflexivity|]. split; [exact Hnone|].
    destruct (period_sentinel_is_not_absence Sample.lib W url (Sample.start FileAbsent))
      as (Hfound & _).
    exact (Hfound _ eq_refl Hnone).
  - split; [reflexivity|].
    destruct (period_sentinel_is_not_absence Sample.lib W nowhere (Sample.start FileAbsent))
      as (_ & Hraise & _).
    exact (Hraise _ eq_refl).
Defined.

(** ** The fetchers degrade to the empty list *)











(** A listed competition without deadline empties the Kaggle result, also
    when the competitions listed before it were collected. *)
Example kaggle_listing_with_null_deadline :
  let bare := {| title := VStr (u8 "C"); ref := VStr (u8 "c"); deadline := None;
                 category := VNone; reward := VNone; description := VNone |} in
  let W := {| authenticate := Ok tt;
              competitions_list := Ok [Sample.item_b; bare];
              requests_get := fun _ => Raise RequestException;
              chat_postMessage := fun _ => Ok true;
              clock := fun _ => Sample.at_time 2024 1 15 12 0 0 |} in
  (Main.get_kaggle_competitions Sample.lib W (Sample.start FileAbsent)).1 = Ok [] /\
  (Slackbot.get_kaggle_competitions Sample.lib W (Sample.start FileAbsent)).1 = Ok [].
Proof. split; vm_compute; reflexivity. Qed.

(** ** The URL of a Kaggle competition *)

Lemma competition_url_starts_with_http item u :
  Common.competition_url item = Ok u -> PyStr.startswith u (u8 "http") = true.
Proof.
  unfold Common.competition_url. destruct (ref item) as [|r]; [done|].
  destruct (PyStr.startswith r (u8 "http")) eqn:Hr; intros [= <-]; [exact Hr|].
  reflexivity.
Qed.



(** ** One cycle, phase by phase *)

Lemma diff_exists (current previous : list pydict) :
  Forall has_url current -> Forall has_url previous ->
  exists new,
    Main.get_new_competitions current previous = Ok new /\
    Slackbot.find_new_competitions current previous = Ok new /\
    new = filter (fun c => ¬ known previous c) current.
Proof. intros Hc Hp. destruct (diff_is_filter _ _ Hc Hp). eauto. Qed.

(** A cycle of [contest_noti_slackbot.py] from a checkpoint every record of
    which has an identity. *)
Lemma slackbot_cycle L W st :
  checkpoint_ok (file st) ->
  exists current st3 reads fetches new ps,
    slackbot_gather L W st = (Ok (stored (file st), current), st3) /\
    file st3 = file st /\
    trace st3 = trace st ++ reads ++ fetches /\
    Forall is_read reads /\ Forall is_fetch fetches /\ Forall has_url current /\
    Slackbot.find_new_competitions current (stored (file st)) = Ok new /\
    new = filter (fun c => ¬ known (stored (file st)) c) current /\
    file (Slackbot.check_new_competitions L W st).2 = FileData current /\
    trace (Slackbot.check_new_competitions L W st).2
      = trace st3 ++ [EvWrite current] ++ ps /\
    Forall is_post ps /\
    (new = [] -> ps = [EvPost Slackbot.no_competition_message]) /\
    (new <> [] -> Forall (deliverable W) new ->
       (Slackbot.check_new_competitions L W st).1 = Ok tt /\
       ps = EvPost <$> rendered Slackbot.notification new /\
       length (rendered Slackbot.notification new) = length new).
Proof.
  intros Hok.
  destruct (slackbot_gather_run L W st)
    as (current & st3 & reads & fetches & Hg & Hf & Ht & Hr & Hfe & Hurl).
  destruct (diff_exists current (stored (file st)) Hurl (stored_ok _ Hok))
    as (new & _ & Hnew & Hfilter).
  rewrite (slackbot_cycle_run L W st _ _ _ _ Hg Hnew).
  destruct new as [|c new].
  - destruct (slackbot_send_no_run W (after_write st3 current)) as [r Hrun].
    rewrite run_bind, Hrun.
    exists current, st3, reads, fetches, [], [EvPost Slackbot.no_competition_message].
    repeat (split; [done|]).
    split; [by destruct r|]. split; [destruct r; cbn; by rewrite <- app_assoc|].
    split; [by repeat constructor|]. split; [done|]. intros H. by destruct H.
  - destruct (slackbot_notify_posts W (c :: new) (after_write st3 current))
      as [[Hfile (ps & Hps & Hpost)] _].
    exists current, st3, reads, fetches, (c :: new), ps.
    repeat (split; [done|]).
    split; [rewrite Hps; cbn; by rewrite <- app_assoc|].
    split; [exact Hpost|]. split; [done|].
    intros _ Hdel.
    destruct (slackbot_notify_run W (c :: new) (after_write st3 current) Hdel)
      as [Hrun Hlen].
    rewrite Hrun in Hps |- *. cbn in Hps. apply app_inv_head in Hps.
    split; [done|]. split; [by symmetry|exact Hlen].
Qed.

(** A cycle of [main.py] from a checkpoint every record of which has an
    identity. *)
Lemma main_cycle L W st :
  checkpoint_ok (file st) ->
  exists current st3 reads fetches new,
    main_gather L W st = (Ok (stored (file st), current), st3) /\
    file st3 = file st /\
    trace st3 = trace st ++ reads ++ fetches /\
    Forall is_read reads /\ Forall is_fetch fetches /\ Forall has_url current /\
    Main.get_new_competitions current (stored (file st)) = Ok new /\
    new = filter (fun c => ¬ known (stored (file st)) c) current /\
    (Main.check_new_competitions L W st).1 = Ok tt /\
    (current = [] -> (Main.check_new_competitions L W st).2 = st3) /\
    (current <> [] ->
       file (Main.check_new_competitions L W st).2 = FileData current /\
       trace (Main.check_new_competitions L W st).2
         = trace st3 ++ (EvPost <$> rendered Main.notification new)
             ++ [EvWrite current]).
Proof.
  intros Hok.
  destruct (main_gather_run L W st)
    as (current & st3 & reads & fetches & Hg & Hf & Ht & Hr & Hfe & Hurl).
  destruct (diff_exists current (stored (file st)) Hurl (stored_ok _ Hok))
    as (new & Hnew & _ & Hfilter).
  exists current, st3, reads, fetches, new. repeat (split; [done|]).
  rewrite (main_cycle_run L W st _ _ _ Hg).
  destruct current as [|c current]; [by repeat split|].
  rewrite Hnew. split; [done|]. split; [done|]. intros _. cbn.
  split; [done|]. by rewrite <- app_assoc.
Qed.

(** A cycle of [main.py] from any checkpoint: it returns, and what it adds
    to the trace is reads, then fetches, then posts, then at most one write. *)
Lemma main_cycle_phases L W st :
  (Main.check_new_competitions L W st).1 = Ok tt /\
  exists evs,
    trace (Main.check_new_competitions L W st).2 = trace st ++ evs /\
    in_phases [is_read; is_fetch; is_post; is_write] evs.
Proof.
  destruct (main_gather_run L W st)
    as (current & st3 & reads & fetches & Hg & Hf & Ht & Hr & Hfe & Hurl).
  rewrite (main_cycle_run L W st _ _ _ Hg).
  assert (Hquiet : in_phases [is_read; is_fetch; is_post; is_write] (reads ++ fetches)).
  { exists reads, fetches. split; [done|]. split; [done|].
    exists fetches, []. split; [by rewrite app_nil_r|]. split; [done|].
    exists [], []. split; [done|]. split; [constructor|].
    exists [], []. by repeat split. }
  destruct current as [|c current].
  { split; [done|]. exists (reads ++ fetches). by split. }
  destruct (Main.get_new_competitions _ _) as [new|e].
  - split; [done|]. cbn.
    exists (reads ++ fetches ++ (EvPost <$> rendered Main.notification new)
              ++ [EvWrite (c :: current)]).
    split; [by rewrite Ht, <- !app_assoc|].
    exists reads, (fetches ++ (EvPost <$> rendered Main.notification new)
                     ++ [EvWrite (c :: current)]).
    split; [done|]. split; [done|].
    exists fetches, ((EvPost <$> rendered Main.notification new) ++ [EvWrite (c :: current)]).
    split; [done|]. split; [done|].
    exists (EvPost <$> rendered Main.notification new), [EvWrite (c :: current)].
    split; [done|]. split; [apply posts_are_posts|].
    exists [EvWrite (c :: current)], []. by repeat constructor.
  - split; [done|]. exists (reads ++ fetches). by split.
Qed.

(** A cycle of [contest_noti_slackbot.py] from any checkpoint: what it adds
    to the trace is reads, then fetches, then at most one write, then posts. *)
Lemma slackbot_cycle_phases L W st :
  exists evs,
    trace (Slackbot.check_new_competitions L W st).2 = trace st ++ evs /\
    in_phases [is_read; is_fetch; is_write; is_post] evs.
Proof.
  destruct (slackbot_gather_run L W st)
    as (current & st3 & reads & fetches & Hg & Hf & Ht & Hr & Hfe & Hurl).
  destruct (Slackbot.find_new_competitions current (stored (file st))) as [new|e] eqn:Hnew.
  - assert (Hps : exists ps,
              trace (Slackbot.check_new_competitions L W st).2
                = trace st3 ++ [EvWrite current] ++ ps /\ Forall is_post ps).
    { rewrite (slackbot_cycle_run L W st _ _ _ _ Hg Hnew). destruct new as [|c new].
      - destruct (slackbot_send_no_run W (after_write st3 current)) as [r Hrun].
        rewrite run_bind, Hrun. exists [EvPost Slackbot.no_competition_message].
        split; [|by repeat constructor]. destruct r; cbn; by rewrite <- app_assoc.
      - destruct (slackbot_notify_posts W (c :: new) (after_write st3 current))
          as [[_ (ps & Hps & Hpost)] _].
        exists ps. split; [|done]. rewrite Hps. cbn. by rewrite <- app_assoc. }
    destruct Hps as (ps & Hps & Hpost).
    exists (reads ++ fetches ++ [EvWrite current] ++ ps).
    split; [by rewrite Hps, Ht, <- !app_assoc|].
    exists reads, (fetches ++ [EvWrite current] ++ ps). split; [done|]. split; [done|].
    exists fetches, ([EvWrite current] ++ ps). split; [done|]. split; [done|].
    exists [EvWrite current], ps. split; [done|]. split; [by repeat constructor|].
    exists ps, []. split; [by rewrite app_nil_r|]. by split.
  - rewrite (slackbot_cycle_raise L W st _ _ _ _ Hg Hnew). cbn.
    exists (reads ++ fetches). split; [done|].
    exists reads, fetches. split; [done|]. split; [done|].
    exists fetches, []. split; [by rewrite app_nil_r|]. split; [done|].
    exists [], []. split; [done|]. split; [constructor|].
    exists [], []. by repeat split.
Qed.

(** ** Writes before posts *)

Lemma posts_nil_no_post evs pre m post :
  posts evs = [] -> evs <> pre ++ EvPost m :: post.
Proof.
  intros Hp ->. rewrite posts_app in Hp. cbn in Hp.
  by apply app_eq_nil in Hp as [_ Hp].
Qed.

Lemma silent_is_persisted evs : posts evs = [] -> persisted_before_notifying evs.
Proof. intros Hp pre m post Heq. by destruct (posts_nil_no_post evs pre m post Hp). Qed.

Lemma write_then_posts_is_persisted quiet data ps :
  posts quiet = [] -> persisted_before_notifying (quiet ++ EvWrite data :: ps).
Proof.
  intros Hq pre m post Heq.
  destruct (decide (length pre <= length quiet)%nat) as [Hle|Hgt].
  - (* the post would lie in the quiet part or on the write *)
    assert (Hlook : (quiet ++ EvWrite data :: ps) !! length pre = Some (EvPost m)).
    { rewrite Heq. apply list_lookup_middle. reflexivity. }
    destruct (decide (length pre = length quiet)) as [Hlen|Hne].
    + rewrite Hlen, list_lookup_middle in Hlook by reflexivity. discriminate.
    + rewrite lookup_app_l in Hlook by lia.
      apply list_elem_of_lookup_2, list_elem_of_split in Hlook as (q1 & q2 & ->).
      by destruct (posts_nil_no_post _ q1 m q2 Hq).
  - assert (Hpre : pre = take (length pre) (quiet ++ EvWrite data :: ps)).
    { rewrite Heq, take_app_length. reflexivity. }
    rewrite take_app_ge in Hpre by lia.
    destruct (length pre - length quiet)%nat as [|k] eqn:Hk; [lia|].
    cbn in Hpre. rewrite Hpre, writes_app. cbn. intros Hw.
    by apply app_eq_nil in Hw as [_ Hw].
Qed.

(** What a cycle of [contest_noti_slackbot.py] adds to the trace never has
    a post before the write of the checkpoint. *)
Lemma slackbot_cycle_persists_first L W st :
  exists evs,
    trace (Slackbot.check_new_competitions L W st).2 = trace st ++ evs /\
    persisted_before_notifying evs.
Proof.
  destruct (slackbot_gather_run L W st)
    as (current & st3 & reads & fetches & Hg & Hf & Ht & Hr & Hfe & Hurl).
  assert (Hquiet : posts (reads ++ fetches) = []).
  { rewrite posts_app. destruct (quiet_reads _ Hr) as [_ ->].
    by destruct (quiet_fetches _ Hfe) as [_ ->]. }
  destruct (Slackbot.find_new_competitions current (stored (file st))) as [new|e] eqn:Hnew.
  - assert (Hps : exists ps,
              trace (Slackbot.check_new_competitions L W st).2
                = trace st3 ++ [EvWrite current] ++ ps).
    { rewrite (slackbot_cycle_run L W st _ _ _ _ Hg Hnew). destruct new as [|c new].
      - destruct (slackbot_send_no_run W (after_write st3 current)) as [r Hrun].
        rewrite run_bind, Hrun. exists [EvPost Slackbot.no_competition_message].
        destruct r; cbn; by rewrite <- app_assoc.
      - destruct (slackbot_notify_posts W (c :: new) (after_write st3 current))
          as [[_ (ps & Hps & Hpost)] _].
        exists ps. rewrite Hps. cbn. by rewrite <- app_assoc. }
    destruct Hps as (ps & Hps).
    exists ((reads ++ fetches) ++ EvWrite current :: ps).
    split; [by rewrite Hps, Ht, <- !app_assoc|].
    by apply write_then_posts_is_persisted.
  - rewrite (slackbot_cycle_raise L W st _ _ _ _ Hg Hnew). cbn.
    exists (reads ++ fetches). split; [done|]. by apply silent_is_persisted.
Qed.

(** ** The claims about the cycle *)

(** A closed equation both sides of which run to the same value. *)
Ltac by_vm :=
  lazymatch goal with
  | |- @eq ?T _ ?b => vm_cast_no_check (@eq_refl T b)
  end.

(** A closed equation between values of a type with a decidable equality:
    the decision is run. *)
Ltac by_decide := apply (bool_decide_eq_true_1 _); by_vm.

Lemma slackbot_notification_blocks c m :
  Slackbot.notification c = Ok m -> length (blocks m) = 4%nat.
Proof.
  unfold Slackbot.notification.
  destruct (Slackbot.format_slack_message c) as [bl|e] eqn:Hf; [|done]. cbn.
  destruct (Slackbot.notification_text c) as [t|e]; [|done]. cbn. intros [= <-]. cbn.
  unfold Slackbot.format_slack_message in Hf.
  destruct (Py.getitem c "platform") as [p|]; [|done]. cbn in Hf.
  destruct (Py.getitem c "name") as [n|]; [|done]. cbn in Hf.
  destruct (bool_decide _).
  - destruct (Py.slice_to _ _) as [short|]; [|done]. cbn in Hf. by injection Hf as <-.
  - cbn in Hf. by injection Hf as <-.
Qed.

(** The message of a cycle without news is no notification of a record. *)
Lemma no_competition_message_is_distinct c m :
  Slackbot.notification c = Ok m -> m <> Slackbot.no_competition_message.
Proof. intros H%slackbot_notification_blocks ->. discriminate H. Qed.




Lemma rendered_length render (new : list pydict) :
  (forall c, c ∈ new -> exists m : message, render c = Ok m) ->
  length (rendered render new) = length new.
Proof.
  induction new as [|c new IH]; intros Hall; [done|].
  destruct (Hall c) as [m Hm]; [left|].
  rewrite rendered_cons, (rendered_ok _ _ _ Hm). cbn.
  rewrite IH; [done|]. intros c' Hc'. apply Hall. by right.
Qed.

(** Counterexample to C3: main.py has no "nothing new" message. In a cycle
    that fetches two competitions, both already in the checkpoint, the set
    of new records is empty and no message at all is posted. *)
Lemma main_is_silent_when_nothing_is_new :
  let seen :=
    stored (file (Main.check_new_competitions Sample.lib Sample.online
                    (Sample.start FileAbsent)).2) in
  let st := Sample.start (FileData seen) in
  (main_gather Sample.lib Sample.online st).1 = Ok (seen, seen) /\
  length seen = 2%nat /\
  Main.get_new_competitions seen seen = Ok [] /\
  posts (trace (Main.check_new_competitions Sample.lib Sample.online st).2) = [].
Proof.
  intros seen st. split; [by_decide|].
  repeat match goal with |- _ /\ _ => split end; by_vm.
Qed.

(** C3, amended. In a cycle of contest_noti_slackbot.py (from a checkpoint
    whose records have an identity) whose set of new records is empty,
    exactly one message is posted, the fixed "nothing new" message, which
    differs from every notification of a record; when the set is not empty,
    one notification is posted per new record, in order, provided each new
    record renders and Slack answers each post or refuses it with
    SlackApiError. In a cycle of main.py the messages posted are the
    notifications of the new records that render, in order, one per new
    record when all render; when nothing is new, nothing is posted. *)
Theorem notifications_of_a_cycle L W st :
  checkpoint_ok (file st) ->
  (exists current st3 new,
     slackbot_gather L W st = (Ok (stored (file st), current), st3) /\
     Slackbot.find_new_competitions current (stored (file st)) = Ok new /\
     (new = [] ->
        posts (trace (Slackbot.check_new_competitions L W st).2)
          = posts (trace st) ++ [Slackbot.no_competition_message]) /\
     (new <> [] -> Forall (deliverable W) new ->
        posts (trace (Slackbot.check_new_competitions L W st).2)
          = posts (trace st) ++ rendered Slackbot.notification new /\
        length (rendered Slackbot.notification new) = length new /\
        Slackbot.no_competition_message ∉ rendered Slackbot.notification new)) /\
  (forall c m, Slackbot.notification c = Ok m -> m <> Slackbot.no_competition_message) /\
  (exists current st3 new,
     main_gather L W st = (Ok (stored (file st), current), st3) /\
     Main.get_new_competitions current (stored (file st)) = Ok new /\
     posts (trace (Main.check_new_competitions L W st).2)
       = posts (trace st) ++ rendered Main.notification new /\
     (new = [] ->
        posts (trace (Main.check_new_competitions L W st).2) = posts (trace st)) /\
     ((forall c, c ∈ new -> exists m, Main.notification c = Ok m) ->
        length (rendered Main.notification new) = length new)).
Proof.
  intros Hok. split; [|split].
  - destruct (slackbot_cycle L W st Hok)
      as (current & st3 & reads & fetches & new & ps & Hg & Hf & Ht & Hr & Hfe & _
          & Hnew & _ & _ & Htrace & _ & Hnone & Hsome).
    destruct (quiet_reads _ Hr) as [_ Hpr]. destruct (quiet_fetches _ Hfe) as [_ Hpf].
    exists current, st3, new. split; [exact Hg|]. split; [exact Hnew|].
    rewrite Htrace, Ht, !posts_app, Hpr, Hpf. cbn. rewrite !app_nil_r. split.
    + intros Hn. by rewrite (Hnone Hn).
    + intros Hn Hdel. destruct (Hsome Hn Hdel) as (_ & -> & Hlen).
      rewrite posts_of_posts. split; [reflexivity|]. split; [exact Hlen|].
      unfold rendered. intros (c & Hc & Hm)%list_elem_of_omap.
      destruct (Slackbot.notification c) as [m|] eqn:Hnot; [|done].
      injection Hm as ->. by apply (no_competition_message_is_distinct c _ Hnot).
  - apply no_competition_message_is_distinct.
  - destruct (main_cycle L W st Hok)
      as (current & st3 & reads & fetches & new & Hg & Hf & Ht & Hr & Hfe & _
          & Hnew & Hfilter & _ & Hempty & Hfull).
    destruct (quiet_reads _ Hr) as [_ Hpr]. destruct (quiet_fetches _ Hfe) as [_ Hpf].
    exists current, st3, new. split; [exact Hg|]. split; [exact Hnew|].
    assert (Hposts : posts (trace (Main.check_new_competitions L W st).2)
                     = posts (trace st) ++ rendered Main.notification new).
    { destruct current as [|c current].
      - rewrite (Hempty eq_refl), Ht, !posts_app, Hpr, Hpf, Hfilter. by rewrite !app_nil_r.
      - destruct (Hfull ltac:(done)) as [_ ->].
        rewrite Ht, !posts_app, Hpr, Hpf, posts_of_posts. cbn. by rewrite !app_nil_r. }
    split; [exact Hposts|]. split; [|apply rendered_length].
    intros ->. rewrite Hposts. by rewrite app_nil_r.
Qed.

Lemma notifications_of_a_cycle_witness :
  let st := Sample.start (FileData [Sample.rec_a]) in
  checkpoint_ok (file st) /\
  (exists current st3 new,
     slackbot_gather Sample.lib Sample.online st = (Ok (stored (file st), current), st3) /\
     Slackbot.find_new_competitions current (stored (file st)) = Ok new /\
     (new = [] ->
        posts (trace (Slackbot.check_new_competitions Sample.lib Sample.online st).2)
          = posts (trace st) ++ [Slackbot.no_competition_message])) /\
  (exists current st3 new,
     main_gather Sample.lib Sample.online st = (Ok (stored (file st), current), st3) /\
     Main.get_new_competitions current (stored (file st)) = Ok new /\
     posts (trace (Main.check_new_competitions Sample.lib Sample.online st).2)
       = posts (trace st) ++ rendered Main.notification new).
Proof.
  intros st.
  assert (Hok : checkpoint_ok (file st)) by (repeat constructor; by eexists).
  split; [exact Hok|].
  destruct (notifications_of_a_cycle Sample.lib Sample.online st Hok)
    as [(cs & s3 & ns & Hgs & Hns & Hnone & _)
        (_ & cm & m3 & nm & Hgm & Hnm & Hposts & _)].
  split; [exists cs, s3, ns|exists cm, m3, nm]; repeat split; assumption.
Defined.

(** The two programs on the scenario of the specification for a cycle
    without news: the checkpoint already holds the two competitions that are
    fetched. contest_noti_slackbot.py posts its one message, main.py none. *)
Example nothing_new_scenario :
  let seen :=
    stored (file (Slackbot.check_new_competitions Sample.lib Sample.online
                    (Sample.start FileAbsent)).2) in
  let st := Sample.start (FileData seen) in
  posts (trace (Slackbot.check_new_competitions Sample.lib Sample.online st).2)
    = [Slackbot.no_competition_message] /\
  posts (trace (Main.check_new_competitions Sample.lib Sample.online st).2) = [].
Proof. intros seen st. split; by_vm. Qed.

Lemma some_post_splits evs :
  posts evs <> [] -> exists pre m post, evs = pre ++ EvPost m :: post.
Proof.
  induction evs as [|e evs IH]; [done|]. intros Hp.
  destruct (decide (posts evs = [])) as [He|Hne].
  - destruct e as [| | | | |m]; try (by destruct Hp). by exists [], m, evs.
  - destruct (IH Hne) as (pre & m & post & ->). by exists (e :: pre), m, post.
Qed.

Lemma post_without_write_is_not_persisted evs n :
  writes (take n evs) = [] -> posts (take n evs) <> [] ->
  ¬ persisted_before_notifying evs.
Proof.
  intros Hw (pre & m & post & Hsplit)%some_post_splits Hpers.
  apply (Hpers pre m (post ++ drop n evs)).
  - rewrite <- (take_drop n evs) at 1. rewrite Hsplit, <- app_assoc. reflexivity.
  - rewrite Hsplit, writes_app in Hw. by apply app_eq_nil in Hw as [Hw _].
Qed.

(** Counterexample to C7: in main.py the notifications are sent before the
    checkpoint is saved. In a first cycle that finds two competitions, the
    first six calls hold a post and no write, and the write is the last
    call: a message is posted with no checkpoint written before it. *)
Lemma main_notifies_before_it_persists :
  let tr := trace (Main.check_new_competitions Sample.lib Sample.online
                     (Sample.start FileAbsent)).2 in
  writes (take 6 tr) = [] /\
  length (posts (take 6 tr)) = 1%nat /\
  length (writes (drop 6 tr)) = 1%nat /\
  ¬ persisted_before_notifying tr.
Proof.
  intros tr.
  assert (Hw : writes (take 6 tr) = []) by by_vm.
  assert (Hp : length (posts (take 6 tr)) = 1%nat) by by_vm.
  split; [exact Hw|]. split; [exact Hp|]. split; [by_vm|].
  apply (post_without_write_is_not_persisted tr 6 Hw).
  intros Hnil. by rewrite Hnil in Hp.
Qed.

(** C7, amended. What a cycle adds to the trace of external calls is, in
    contest_noti_slackbot.py, the read of the checkpoint, then the fetches,
    then the write of the new checkpoint, then the posts: no message is
    posted before the checkpoint is written. In main.py it is the read,
    then the fetches, then the posts, then the write: the notifications
    come before the save. From a checkpoint whose records have an identity
    the write is that of the list just fetched (in main.py when the list is
    not empty) and the posts are those of the diff. *)
Theorem phases_of_a_cycle L W st :
  (exists evs,
     trace (Slackbot.check_new_competitions L W st).2 = trace st ++ evs /\
     in_phases [is_read; is_fetch; is_write; is_post] evs /\
     persisted_before_notifying evs) /\
  (exists evs,
     trace (Main.check_new_competitions L W st).2 = trace st ++ evs /\
     in_phases [is_read; is_fetch; is_post; is_write] evs) /\
  (checkpoint_ok (file st) ->
     (exists current st3 ps,
        slackbot_gather L W st = (Ok (stored (file st), current), st3) /\
        trace (Slackbot.check_new_competitions L W st).2
          = trace st3 ++ [EvWrite current] ++ ps /\
        Forall is_post ps) /\
     (exists current st3 new,
        main_gather L W st = (Ok (stored (file st), current), st3) /\
        Main.get_new_competitions current (stored (file st)) = Ok new /\
        (current <> [] ->
           trace (Main.check_new_competitions L W st).2
             = trace st3 ++ (EvPost <$> rendered Main.notification new)
                 ++ [EvWrite current]))).
Proof.
  split; [|split].
  - destruct (slackbot_cycle_phases L W st) as (evs & Hevs & Hphases).
    destruct (slackbot_cycle_persists_first L W st) as (evs' & Hevs' & Hpers).
    exists evs. split; [exact Hevs|]. split; [exact Hphases|].
    rewrite Hevs in Hevs'. by apply app_inv_head in Hevs' as ->.
  - by destruct (main_cycle_phases L W st) as [_ H].
  - intros Hok. split.
    + destruct (slackbot_cycle L W st Hok)
        as (current & st3 & reads & fetches & new & ps & Hg & _ & _ & _ & _ & _
            & _ & _ & _ & Htrace & Hpost & _).
      by exists current, st3, ps.
    + destruct (main_cycle L W st Hok)
        as (current & st3 & reads & fetches & new & Hg & _ & _ & _ & _ & _
            & Hnew & _ & _ & _ & Hfull).
      exists current, st3, new. split; [exact Hg|]. split; [exact Hnew|].
      intros Hne. by destruct (Hfull Hne).
Qed.

Lemma phases_of_a_cycle_witness :
  let st := Sample.start (FileData [Sample.rec_a]) in
  checkpoint_ok (file st) /\
  (exists current st3 ps,
     slackbot_gather Sample.lib Sample.online st = (Ok (stored (file st), current), st3) /\
     trace (Slackbot.check_new_competitions Sample.lib Sample.online st).2
       = trace st3 ++ [EvWrite current] ++ ps /\
     Forall is_post ps).
Proof.
  intros st.
  assert (Hok : checkpoint_ok (file st)) by (repeat constructor; by eexists).
  split; [exact Hok|].
  destruct (phases_of_a_cycle Sample.lib Sample.online st) as (_ & _ & H).
  exact (proj1 (H Hok)).
Defined.

(** The calls of a first cycle that finds two competitions, by kind, in the
    two programs. *)
Example first_cycle_scenario :
  let kind e :=
    match e with
    | EvRead => "read" | EvWrite _ => "write" | EvPost _ => "post"
    | EvAuth | EvList | EvGet _ => "fetch"
    end in
  kind <$> trace (Slackbot.check_new_competitions Sample.lib Sample.online
                    (Sample.start FileAbsent)).2
    = ["fetch"; "fetch"; "fetch"; "fetch"; "write"; "post"; "post"] /\
  kind <$> trace (Main.check_new_competitions Sample.lib Sample.online
                    (Sample.start FileAbsent)).2
    = ["fetch"; "fetch"; "fetch"; "fetch"; "fetch"; "post"; "post"; "write"].
Proof. intros kind. split; by_vm. Qed.

(** ** The text of the period *)

Lemma split_nonempty sep s : PyStr.split sep s <> [].
Proof. induction s as [|c s IH]; cbn; [done|]. destruct (c =? sep); [done|]. by destruct (PyStr.split sep s). Qed.

Lemma split_no_sep sep s : sep ∉ s -> PyStr.split sep s = [s].
Proof.
  induction s as [|c s IH]; cbn; [done|]. intros Hn.
  apply not_elem_of_cons in Hn as [Hc Hs].
  destruct (Z.eqb_spec c sep) as [->|_]; [done|]. by rewrite IH.
Qed.

Lemma split_app_sep sep a b :
  sep ∉ a -> PyStr.split sep (a ++ sep :: b) = a :: PyStr.split sep b.
Proof.
  induction a as [|c a IH]; cbn; intros Hn.
  - by rewrite Z.eqb_refl.
  - apply not_elem_of_cons in Hn as [Hc Ha].
    destruct (Z.eqb_spec c sep) as [->|_]; [done|]. by rewrite IH.
Qed.

Lemma split_one sep s b : PyStr.split sep s = [b] -> s = b /\ sep ∉ b.
Proof.
  revert b. induction s as [|c s IH]; cbn; intros b.
  - intros [= <-]. split; [done|]. apply not_elem_of_nil.
  - destruct (Z.eqb_spec c sep) as [->|Hne].
    + intros [= _ H]. by destruct (split_nonempty sep s).
    + destruct (PyStr.split sep s) as [|p ps] eqn:Hs; [by destruct (split_nonempty sep s)|].
      intros [= <- ->]. destruct (IH p eq_refl) as [-> Hp]. split; [done|].
      apply not_elem_of_cons. by split.
Qed.

(** A string splits in exactly two parts at a separator iff it has exactly
    one separator, between the two parts. *)
Lemma split_two sep s a b :
  PyStr.split sep s = [a; b] <-> s = a ++ (sep :: b) /\ (sep ∉ a) /\ (sep ∉ b).
Proof.
  split.
  - revert a. induction s as [|c s IH]; cbn; intros a; [done|].
    destruct (Z.eqb_spec c sep) as [->|Hne].
    + intros [= <- H]. destruct (split_one _ _ _ H) as [-> Hb].
      split; [done|]. split; [apply not_elem_of_nil|done].
    + destruct (PyStr.split sep s) as [|p ps] eqn:Hs; [done|].
      intros [= <- ->]. destruct (IH p eq_refl) as (-> & Hp & Hb).
      split; [done|]. split; [|done]. apply not_elem_of_cons. by split.
  - intros (-> & Ha & Hb). by rewrite split_app_sep, split_no_sep.
Qed.

Lemma replace_from_skip old new k s :
  PyStr.replace_from old new k s = PyStr.replace_from old new 0 (drop k s).
Proof.
  revert k. induction s as [|c s IH]; intros [|k]; cbn [PyStr.replace_from drop]; done.
Qed.

(** An occurrence at the head is replaced and the scan goes on after it. *)
Lemma replace_head old new s :
  old <> [] -> PyStr.replace (old ++ s) old new = new ++ PyStr.replace s old new.
Proof.
  destruct old as [|c old]; [done|]. intros _. unfold PyStr.replace.
  assert (H : PyStr.startswith (c :: old ++ s) (c :: old) = true)
    by apply (startswith_app (c :: old) s).
  cbn [app PyStr.replace_from]. rewrite H.
  rewrite replace_from_skip. cbn [length Nat.pred]. by rewrite drop_app_length.
Qed.

(** A character that does not start an occurrence is kept. *)
Lemma replace_keep old new c s :
  old <> [] -> PyStr.startswith (c :: s) old = false ->
  PyStr.replace (c :: s) old new = c :: PyStr.replace s old new.
Proof.
  destruct old as [|o old]; [done|]. intros _ H. unfold PyStr.replace.
  cbn [PyStr.replace_from]. by rewrite H.
Qed.

(** A string without the first character of [old] has no occurrence. *)
Lemma replace_absent o old new s :
  o ∉ s -> PyStr.replace s (o :: old) new = s.
Proof.
  induction s as [|c s IH]; [done|]. intros Hn.
  apply not_elem_of_cons in Hn as [Hc Hs].
  rewrite replace_keep; [by rewrite IH|done|].
  cbn. apply andb_false_iff. left. by apply Z.eqb_neq.
Qed.

Lemma replace_spaces_then o old new n s :
  o <> 32 ->
  PyStr.replace (replicate n 32 ++ s) (o :: old) new
  = replicate n 32 ++ PyStr.replace s (o :: old) new.
Proof.
  intros Ho. induction n as [|n IH]; [done|]. cbn [replicate app].
  rewrite replace_keep, IH; [done|done|].
  cbn [PyStr.startswith]. apply andb_false_iff. left. apply Z.eqb_neq. congruence.
Qed.

Section Clock.
Variable nd : Z -> bool.

Lemma sub_clock_from_skip k s :
  Re.sub_clock_from nd k s = Re.sub_clock nd (drop k s).
Proof.
  unfold Re.sub_clock. revert k.
  induction s as [|c s IH]; intros [|k]; cbn [Re.sub_clock_from drop]; done.
Qed.

(** A clock time at the head is dropped and the scan goes on after it. *)
Lemma sub_clock_match s n :
  Re.match_clock nd s = Some n -> Re.sub_clock nd s = Re.sub_clock nd (drop n s).
Proof.
  destruct s as [|c s]; [done|]. intros H. unfold Re.sub_clock at 1.
  cbn [Re.sub_clock_from]. rewrite H, sub_clock_from_skip.
  destruct n as [|n]; [|done].
  unfold Re.match_clock in H. destruct (Re.is_digit nd c); [|done].
  destruct s as [|d s]; [done|]. destruct (_ && _); [done|].
  by destruct (Re.colon_minutes nd (d :: s)).
Qed.

(** A character at which no clock time starts is kept. *)
Lemma sub_clock_keep c s :
  Re.match_clock nd (c :: s) = None ->
  Re.sub_clock nd (c :: s) = c :: Re.sub_clock nd s.
Proof. intros H. unfold Re.sub_clock. cbn [Re.sub_clock_from]. by rewrite H. Qed.

(** What the pattern matches at the head of a string: two digits, a colon
    and two digits, or else one digit, a colon and two digits. *)
Lemma match_clock_spec s n :
  Re.match_clock nd s = Some n <->
  (n = 5%nat /\ exists h1 h2 m1 m2 rest,
     s = h1 :: h2 :: 58 :: m1 :: m2 :: rest /\
     Re.is_digit nd h1 = true /\ Re.is_digit nd h2 = true /\
     Re.is_digit nd m1 = true /\ Re.is_digit nd m2 = true) \/
  (n = 4%nat /\ exists h m1 m2 rest,
     s = h :: 58 :: m1 :: m2 :: rest /\
     Re.is_digit nd h = true /\ Re.is_digit nd m1 = true /\ Re.is_digit nd m2 = true).
Proof.
  assert (Hcolon : Re.is_digit nd 58 = false) by reflexivity.
  split.
  - unfold Re.match_clock. destruct s as [|h1 [|h2 s]]; try done;
      destruct (Re.is_digit nd h1) eqn:H1; try done.
    destruct (Re.is_digit nd h2 && Re.colon_minutes nd s) eqn:H5.
    + intros [= <-]. left. split; [done|].
      apply andb_true_iff in H5 as [H2 Hc]. unfold Re.colon_minutes in Hc.
      destruct s as [|c [|m1 [|m2 rest]]]; try done;
        apply andb_true_iff in Hc as [Hc Hm]; try done.
      apply Z.eqb_eq in Hc as ->. apply andb_true_iff in Hm as [Hm1 Hm2].
      by exists h1, h2, m1, m2, rest.
    + destruct (Re.colon_minutes nd (h2 :: s)) eqn:H4; [|done].
      intros [= <-]. right. split; [done|]. unfold Re.colon_minutes in H4.
      apply andb_true_iff in H4 as [Hc Hm]. apply Z.eqb_eq in Hc as ->.
      destruct s as [|m1 [|m2 rest]]; try done.
      apply andb_true_iff in Hm as [Hm1 Hm2]. by exists h1, m1, m2, rest.
  - intros [[-> (h1 & h2 & m1 & m2 & rest & -> & H1 & H2 & Hm1 & Hm2)]
           |[-> (h & m1 & m2 & rest & -> & H1 & Hm1 & Hm2)]]; cbn.
    + by rewrite H1, H2, Hm1, Hm2.
    + by rewrite H1, Hm1, Hm2.
Qed.

Lemma sub_clock_spaces_then n s :
  Re.sub_clock nd (replicate n 32 ++ s) = replicate n 32 ++ Re.sub_clock nd s.
Proof. induction n as [|n IH]; [done|]. cbn [replicate app]. by rewrite sub_clock_keep, IH. Qed.

End Clock.

Lemma spaces_are_space n : Forall (fun c => PyStr.isspace c = true) (replicate n 32).
Proof. induction n; constructor; done. Qed.

Lemma not_in_spaces c n : c <> 32 -> c ∉ replicate n 32.
Proof. intros Hc [Heq _]%elem_of_replicate. done. Qed.

Lemma not_in_by_test (c : Z) (l : str) :
  forallb (fun d => negb (d =? c)) l = true -> c ∉ l.
Proof.
  induction l as [|d l IH]; cbn; [intros _; apply not_elem_of_nil|].
  intros [Hd Hl]%andb_true_iff. apply not_elem_of_cons. split; [|by apply IH].
  apply negb_true_iff, Z.eqb_neq in Hd. congruence.
Qed.

(** Whatever the spacing, the period of the specification is cleaned to
    the same text. *)
Lemma clean_period_spaced L n1 n2 n3 n4 :
  Main.clean_period L (Sample.spaced_period n1 n2 n3 n4) = u8 "2024.01.01 ~ 2024.01.31".
Proof.
  unfold Main.clean_period, Sample.spaced_period.
  set (nd := unicode_nd L).
  (* the label goes *)
  assert (Hprefix : exists old, Common.PERIOD_PREFIX = 45 :: old) by (by eexists).
  destruct Hprefix as [old Hold].
  assert (Hrep :
    PyStr.replace
      (replicate n1 32 ++ Common.PERIOD_PREFIX ++ u8 "2024.01.01 10:00" ++ replicate n2 32
       ++ u8 "~" ++ replicate n3 32 ++ u8 "2024.01.31 18:00" ++ replicate n4 32)
      Common.PERIOD_PREFIX []
    = replicate n1 32
      ++ (u8 "2024.01.01 10:00" ++ replicate n2 32 ++ u8 "~" ++ replicate n3 32
          ++ u8 "2024.01.31 18:00") ++ replicate n4 32).
  { rewrite Hold at 2. rewrite replace_spaces_then by done. rewrite <- Hold.
    rewrite replace_head by (by rewrite Hold). cbn [app]. rewrite Hold, replace_absent.
    - by rewrite <- !app_assoc.
    - rewrite !not_elem_of_app. repeat split; try (by apply not_in_spaces);
        by apply not_in_by_test. }
  rewrite Hrep. clear Hrep Hold old.
  (* the outer spaces go *)
  assert (Hlit1 : u8 "2024.01.01 10:00" = u8 "2024.01.01 " ++ u8 "10:00") by by_vm.
  assert (Hlit2 : u8 "2024.01.31 18:00" = (u8 "2024.01.31 " ++ u8 "18:0") ++ [48]) by by_vm.
  assert (Hdate1 : u8 "2024.01.01 " = 50 :: u8 "024.01.01 ") by by_vm.
  rewrite strip_framed; [|apply spaces_are_space|apply spaces_are_space| |].
  2:{ intros c u. rewrite Hlit1, Hdate1. cbn [app]. by intros [= <- _]. }
  2:{ intros c u. rewrite Hlit2, !app_assoc. by intros [_ [= <-]]%app_inj_tail. }
  (* the clock times go *)
  assert (Hclock1 : forall rest,
            Re.sub_clock nd (u8 "2024.01.01 10:00" ++ rest)
            = u8 "2024.01.01 " ++ Re.sub_clock nd rest).
  { intros rest. rewrite Hlit1, <- app_assoc.
    assert (Hscan : forall tail, Re.sub_clock nd (u8 "2024.01.01 " ++ u8 "10:00" ++ tail)
                                 = u8 "2024.01.01 " ++ Re.sub_clock nd (u8 "10:00" ++ tail)).
    { intros tail. replace (u8 "2024.01.01 ") with [50; 48; 50; 52; 46; 48; 49; 46; 48; 49; 32]
        by by_vm.
      replace (u8 "10:00") with [49; 48; 58; 48; 48] by by_vm.
      cbn [app]. by rewrite !sub_clock_keep by reflexivity. }
    rewrite Hscan. apply (f_equal (app (u8 "2024.01.01 "))).
    replace (u8 "10:00") with [49; 48; 58; 48; 48] by by_vm. cbn [app].
    by rewrite (sub_clock_match nd _ 5) by reflexivity. }
  assert (Hclock2 : Re.sub_clock nd (u8 "2024.01.31 18:00") = u8 "2024.01.31 ").
  { replace (u8 "2024.01.31 18:00")
      with ([50; 48; 50; 52; 46; 48; 49; 46; 51; 49; 32] ++ [49; 56; 58; 48; 48]) by by_vm.
    replace (u8 "2024.01.31 ") with [50; 48; 50; 52; 46; 48; 49; 46; 51; 49; 32] by by_vm.
    cbn [app]. rewrite !sub_clock_keep by reflexivity.
    by rewrite (sub_clock_match nd _ 5) by reflexivity. }
  rewrite Hclock1, sub_clock_spaces_then.
  replace (u8 "~") with [126] by by_vm. cbn [app].
  rewrite sub_clock_keep by reflexivity. rewrite sub_clock_spaces_then, Hclock2.
  (* the two parts *)
  assert (Hsplit :
    PyStr.split 126
      (u8 "2024.01.01 " ++ replicate n2 32 ++ 126 :: replicate n3 32 ++ u8 "2024.01.31 ")
    = [u8 "2024.01.01 " ++ replicate n2 32; replicate n3 32 ++ u8 "2024.01.31 "]).
  { apply split_two. split; [by rewrite <- app_assoc|].
    rewrite !not_elem_of_app. repeat split; try (by apply not_in_spaces);
      by apply not_in_by_test. }
  rewrite Hsplit.
  assert (Hd1 : u8 "2024.01.01 " = u8 "2024.01.01" ++ [32]) by by_vm.
  assert (Hd2 : u8 "2024.01.31 " = u8 "2024.01.31" ++ [32]) by by_vm.
  assert (Hstrip : forall date ws1 ws2,
            PyStr.isspace (default 32 (head date)) = false ->
            PyStr.isspace (default 32 (last date)) = false ->
            Forall (fun c => PyStr.isspace c = true) ws1 ->
            Forall (fun c => PyStr.isspace c = true) ws2 ->
            PyStr.strip (ws1 ++ date ++ ws2) = date).
  { intros date ws1 ws2 Hh Hl H1 H2. apply strip_framed; [done|done| |].
    - intros c u ->. exact Hh.
    - intros c u ->. by rewrite last_snoc in Hl. }
  rewrite Hd1, Hd2.
  rewrite <- (app_nil_l ((u8 "2024.01.01" ++ [32]) ++ replicate n2 32)), <- app_assoc.
  rewrite (Hstrip (u8 "2024.01.01") [] ([32] ++ replicate n2 32));
    [|by_vm|by_vm|constructor|apply Forall_app; split; [by repeat constructor|apply spaces_are_space]].
  rewrite (app_assoc (replicate n3 32)).
  rewrite <- (app_nil_l ((replicate n3 32 ++ u8 "2024.01.31") ++ [32])), <- !app_assoc.
  rewrite (app_nil_l (replicate n3 32 ++ _)).
  rewrite (Hstrip (u8 "2024.01.31") (replicate n3 32) [32]);
    [|by_vm|by_vm|apply spaces_are_space|by repeat constructor].
  by_vm.
Qed.

(** The label goes and the spaces around what is left go; the clock times
    stay when nothing removes them. *)
Lemma strip_label_spaced n1 n2 n3 n4 :
  PyStr.strip (PyStr.replace (Sample.spaced_period n1 n2 n3 n4) Common.PERIOD_PREFIX [])
  = u8 "2024.01.01 10:00" ++ replicate n2 32 ++ u8 "~" ++ replicate n3 32
    ++ u8 "2024.01.31 18:00".
Proof.
  unfold Sample.spaced_period.
  assert (Hprefix : exists old, Common.PERIOD_PREFIX = 45 :: old) by (by eexists).
  destruct Hprefix as [old Hold].
  rewrite Hold at 2. rewrite replace_spaces_then by done. rewrite <- Hold.
  rewrite replace_head by (by rewrite Hold). cbn [app]. rewrite Hold, replace_absent.
  2:{ rewrite !not_elem_of_app. repeat split; try (by apply not_in_spaces);
        by apply not_in_by_test. }
  assert (Hlit1 : u8 "2024.01.01 10:00" = 50 :: u8 "024.01.01 10:00") by by_vm.
  assert (Hlit2 : u8 "2024.01.31 18:00" = u8 "2024.01.31 18:0" ++ [48]) by by_vm.
  rewrite !(app_assoc _ _ (replicate n4 32)).
  rewrite <- !app_assoc.
  replace (u8 "2024.01.01 10:00" ++ replicate n2 32 ++ u8 "~" ++ replicate n3 32
           ++ u8 "2024.01.31 18:00" ++ replicate n4 32)
    with ((u8 "2024.01.01 10:00" ++ replicate n2 32 ++ u8 "~" ++ replicate n3 32
           ++ u8 "2024.01.31 18:00") ++ replicate n4 32)
    by (by rewrite <- !app_assoc).
  apply strip_framed; [apply spaces_are_space|apply spaces_are_space| |].
  - intros c u. rewrite Hlit1. cbn [app]. by intros [= <- _].
  - intros c u. rewrite Hlit2, !app_assoc. by intros [_ [= <-]]%app_inj_tail.
Qed.

(** The substitution only removes characters. *)
Lemma sub_clock_sublist nd (s : str) : sublist (Re.sub_clock nd s) s.
Proof.
  unfold Re.sub_clock. generalize O.
  induction s as [|c s IH]; intros k; cbn [Re.sub_clock_from]; [constructor|].
  destruct k as [|k]; [|by constructor].
  destruct (Re.match_clock nd (c :: s)) as [n|]; by constructor.
Qed.

(** Counterexample to C4: the extractor of contest_noti_slackbot.py removes
    the label and the surrounding spaces and nothing else. On the page of
    the specification it returns the period with its clock times. *)
Lemma slackbot_period_keeps_the_clock_times :
  let url := u8 "https://dacon.io/competitions/a/schedule" in
  let st := Sample.start FileAbsent in
  requests_get Sample.online url = Ok Sample.schedule_page /\
  (Slackbot.get_competition_period Sample.online url st).1
    = Ok (VStr (u8 "2024.01.01 10:00 ~ 2024.01.31 18:00")) /\
  (Slackbot.get_competition_period Sample.online url st).1
    <> Ok (VStr (u8 "2024.01.01 ~ 2024.01.31")).
Proof.
  intros url st.
  assert (H : (Slackbot.get_competition_period Sample.online url st).1
              = Ok (VStr (u8 "2024.01.01 10:00 ~ 2024.01.31 18:00"))) by by_vm.
  split; [by_vm|]. split; [exact H|]. rewrite H. intros [=].
Qed.

(** C4, amended. Given a page that was fetched and whose first text node
    with the label "대회 기간 :" is [period_text], let [period] be that text
    without the prefix "- 대회 기간 : " and without the whitespace around it.
    The extractor of main.py removes from [period] the clock times (one or
    two digits, a colon, two digits), which only removes characters; when
    what remains is cut by one tilde in exactly two parts it returns the
    two parts, each without the whitespace around it, joined by " ~ ", and
    otherwise it returns what remains; on the text "- 대회 기간 :
    2024.01.01 10:00 ~ 2024.01.31 18:00", whatever the number of spaces
    before the label, around the tilde and at the end, it returns
    "2024.01.01 ~ 2024.01.31". The extractor of contest_noti_slackbot.py
    returns [period] as it is: the clock times and the spacing around the
    tilde stay. *)
Theorem period_extractor_cleaning L W url soup period_text st :
  requests_get W url = Ok soup ->
  Common.find_string Common.has_period_label (strings soup) = Some period_text ->
  let period := PyStr.strip (PyStr.replace period_text Common.PERIOD_PREFIX []) in
  let cleaned := Re.sub_clock (unicode_nd L) period in
  (exists ws1 ws2,
     PyStr.replace period_text Common.PERIOD_PREFIX [] = ws1 ++ period ++ ws2 /\
     Forall (fun c => PyStr.isspace c = true) ws1 /\
     Forall (fun c => PyStr.isspace c = true) ws2) /\
  sublist cleaned period /\
  (exists out,
     (Main.get_competition_period L W url st).1 = Ok (VStr out) /\
     (forall a b, cleaned = a ++ 126 :: b -> 126 ∉ a -> 126 ∉ b ->
        out = PyStr.strip a ++ u8 " ~ " ++ PyStr.strip b) /\
     ((¬ exists a b, cleaned = a ++ 126 :: b /\ (126 ∉ a) /\ (126 ∉ b)) -> out = cleaned) /\
     (forall n1 n2 n3 n4, period_text = Sample.spaced_period n1 n2 n3 n4 ->
        out = u8 "2024.01.01 ~ 2024.01.31")) /\
  (Slackbot.get_competition_period W url st).1 = Ok (VStr period) /\
  (forall n1 n2 n3 n4, period_text = Sample.spaced_period n1 n2 n3 n4 ->
     period = u8 "2024.01.01 10:00" ++ replicate n2 32 ++ u8 "~" ++ replicate n3 32
              ++ u8 "2024.01.31 18:00").
Proof.
  intros Hget Hfind period cleaned.
  split.
  { destruct (strip_spec (PyStr.replace period_text Common.PERIOD_PREFIX []))
      as (ws1 & ws2 & Heq & H1 & H2 & _). by exists ws1, ws2. }
  split; [apply sub_clock_sublist|].
  split.
  - exists (Main.clean_period L period_text).
    rewrite main_period_run, Hget, Hfind. cbn [fst].
    split; [reflexivity|].
    unfold Main.clean_period. fold period. fold cleaned.
    split; [|split].
    + intros a b Heq Ha Hb.
      assert (Hs : PyStr.split 126 cleaned = [a; b]) by (by apply split_two).
      by rewrite Hs.
    + intros Hno. destruct (PyStr.split 126 cleaned) as [|a [|b [|c rest]]] eqn:Hs;
        try reflexivity.
      destruct Hno. exists a, b. by apply split_two.
    + intros n1 n2 n3 n4 ->. apply clean_period_spaced.
  - rewrite slackbot_period_run, Hget, Hfind. cbn [fst].
    split; [reflexivity|].
    intros n1 n2 n3 n4 ->. apply strip_label_spaced.
Qed.

Lemma period_extractor_cleaning_witness :
  let url := u8 "https://dacon.io/competitions/a/schedule" in
  let text := u8 "- 대회 기간 : 2024.01.01 10:00 ~ 2024.01.31 18:00" in
  let st := Sample.start FileAbsent in
  requests_get Sample.online url = Ok Sample.schedule_page /\
  Common.find_string Common.has_period_label (strings Sample.schedule_page) = Some text /\
  (Main.get_competition_period Sample.lib Sample.online url st).1
    = Ok (VStr (u8 "2024.01.01 ~ 2024.01.31")) /\
  (Slackbot.get_competition_period Sample.online url st).1
    = Ok (VStr (u8 "2024.01.01 10:00 ~ 2024.01.31 18:00")).
Proof.
  intros url text st.
  assert (Hget : requests_get Sample.online url = Ok Sample.schedule_page) by by_vm.
  assert (Hfind : Common.find_string Common.has_period_label
                    (strings Sample.schedule_page) = Some text) by by_decide.
  assert (Htext : text = Sample.spaced_period 0 1 1 0) by by_decide.
  split; [exact Hget|]. split; [exact Hfind|].
  destruct (period_extractor_cleaning Sample.lib Sample.online url
              Sample.schedule_page text st Hget Hfind)
    as (_ & _ & (out & Hmain & _ & _ & Hout) & Hslack & Hperiod).
  split.
  - rewrite Hmain. by rewrite (Hout _ _ _ _ Htext).
  - rewrite Hslack. rewrite (Hperiod _ _ _ _ Htext). by_decide.
Defined.
